(** * Quotient-Bot: the interactive input helpers of [src/utils/inputs.py]

    A shallow embedding of the "wait for the next message, then parse and
    validate it" helpers ([channel_input], [role_input], [member_input],
    [integer_input], [time_input], [image_input]) together with the
    statements the specification makes about them.

    Conventions of the embedding:
    - a Python [str] is a [string] of code points below 256;
    - a Python [int] is a [Z]; an optional argument is an [option];
    - an [async] function is a computation in the monad [io], which threads
      the observable world (transcript, HTTP log, clock) and may raise;
    - SDK objects (messages, channels, roles, permissions) are records that
      carry the attributes the helpers read. *)

From Stdlib Require Import ZArith NArith String Ascii List Bool Lia DecimalString.
Import ListNotations.

Local Open Scope string_scope.
Local Open Scope Z_scope.

(* ===================================================================== *)
(** ** Python builtins used by the helpers *)
(* ===================================================================== *)

Module Py.

(** The line feed written [\n] in the source. *)
Definition nl : string := String (ascii_of_nat 10) EmptyString.

Definition code (c : ascii) : nat := nat_of_ascii c.

Definition between (lo hi : nat) (c : ascii) : bool :=
  (Nat.leb lo (code c) && Nat.leb (code c) hi)%bool.

(** [str.isspace] on one code point below 256: TAB..CR, FS..US, SPACE,
    NEL and NBSP. *)
Definition isspace (c : ascii) : bool :=
  (between 9 13 c || between 28 32 c
   || Nat.eqb (code c) 133 || Nat.eqb (code c) 160)%bool.

Fixpoint lstrip (s : string) : string :=
  match s with
  | EmptyString => EmptyString
  | String c r => if isspace c then lstrip r else s
  end.

Fixpoint rstrip (s : string) : string :=
  match s with
  | EmptyString => EmptyString
  | String c r =>
      match rstrip r with
      | EmptyString => if isspace c then EmptyString else String c EmptyString
      | r' => String c r'
      end
  end.

(** [s.strip()] *)
Definition strip (s : string) : string := rstrip (lstrip s).

(** [str.lower] on one code point below 256: A..Z and the Latin-1
    capitals other than the multiplication sign move up by 32. *)
Definition lower_char (c : ascii) : ascii :=
  if (between 65 90 c
      || (between 192 222 c && negb (Nat.eqb (code c) 215)))%bool
  then ascii_of_nat (code c + 32)
  else c.

(** [s.lower()] *)
Fixpoint lower (s : string) : string :=
  match s with
  | EmptyString => EmptyString
  | String c r => String (lower_char c) (lower r)
  end.

(** [len(s)] *)
Definition len (s : string) : nat := String.length s.

(** [str(n)] for an [int]: the decimal numeral, with a leading minus
    sign for a negative number. *)
Definition str (n : Z) : string := NilZero.string_of_int (Z.to_int n).

Definition is_digit (c : ascii) : bool := between 48 57 c.

Definition digit_value (c : ascii) : Z := Z.of_nat (code c - 48).

(** The digits of a base-10 literal accepted by [int]: at least one
    digit, single underscores allowed between two digits.  [after_digit]
    records whether the previous character was a digit. *)
Fixpoint parse_digits (acc : Z) (after_digit : bool) (s : string) : option Z :=
  match s with
  | EmptyString => if after_digit then Some acc else None
  | String c r =>
      if is_digit c then parse_digits (10 * acc + digit_value c) true r
      else if (Ascii.eqb c "_" && after_digit)%bool then
             match r with
             | EmptyString => None
             | String d _ => if is_digit d then parse_digits acc false r else None
             end
      else None
  end.

(** The interpreter's limit on the number of digits [int] converts
    ([sys.int_info.default_max_str_digits]). *)
Definition max_str_digits : Z := 4300.

(** The digits of a literal, underscores left out. *)
Fixpoint count_digits (s : string) : Z :=
  match s with
  | EmptyString => 0
  | String c r => (if is_digit c then 1 else 0) + count_digits r
  end.

(** A well-formed literal with more than [max_str_digits] digits is
    refused, like an ill-formed one. *)
Definition int_literal (s : string) : option Z :=
  match parse_digits 0 false s with
  | Some v => if max_str_digits <? count_digits s then None else Some v
  | None => None
  end.

(** White space skipped by [int] around the literal: the C white space
    of the ASCII range, and the non-ASCII spaces NEL and NBSP. *)
Definition int_space (c : ascii) : bool :=
  (between 9 13 c || Nat.eqb (code c) 32
   || Nat.eqb (code c) 133 || Nat.eqb (code c) 160)%bool.

Fixpoint int_lskip (s : string) : string :=
  match s with
  | EmptyString => EmptyString
  | String c r => if int_space c then int_lskip r else s
  end.

Fixpoint int_rskip (s : string) : string :=
  match s with
  | EmptyString => EmptyString
  | String c r =>
      match int_rskip r with
      | EmptyString => if int_space c then EmptyString else String c EmptyString
      | r' => String c r'
      end
  end.

(** [int(s)] for a [str]: [None] stands for [ValueError], raised for an
    ill-formed literal and for one with too many digits. *)
Definition int (s : string) : option Z :=
  match int_rskip (int_lskip s) with
  | EmptyString => None
  | String c r =>
      if Ascii.eqb c "-" then option_map Z.opp (int_literal r)
      else if Ascii.eqb c "+" then int_literal r
      else int_literal (String c r)
  end.

(** Truth value of an optional integer: [None] and [0] are falsy. *)
Definition truthy (o : option Z) : bool :=
  match o with
  | Some n => negb (n =? 0)
  | None => false
  end.

(** [any(t)] and [all(t)] on a pair. *)
Definition any2 (t : option Z * option Z) : bool :=
  (truthy (fst t) || truthy (snd t))%bool.

Definition all2 (t : option Z * option Z) : bool :=
  (truthy (fst t) && truthy (snd t))%bool.

(** [x in t] for a tuple of strings. *)
Definition mem (x : string) (t : list string) : bool :=
  existsb (String.eqb x) t.

(** [needle in hay] for two strings. *)
Fixpoint contains (needle hay : string) : bool :=
  (prefix needle hay ||
   match hay with
   | EmptyString => false
   | String _ r => contains needle r
   end)%bool.

End Py.

(* ===================================================================== *)
(** ** Objects of the chat SDK, as far as the helpers read them *)
(* ===================================================================== *)

Module Discord.

(** The permission flags consulted by [channel_input] and [role_input]. *)
Record Permissions := {
  read_messages : bool;
  send_messages : bool;
  embed_links : bool;
  manage_channels : bool;
  add_reactions : bool;
  use_external_emojis : bool;
  manage_messages : bool;
  administrator : bool;
  manage_roles : bool;
  kick_members : bool;
  ban_members : bool
}.

(** In the SDK [manage_permissions] is an alias of [manage_roles]. *)
Definition manage_permissions (p : Permissions) : bool := manage_roles p.

Record Role := {
  role_id : N;
  role_mention : string;
  position : Z;
  managed : bool;
  permissions : Permissions
}.

Record Member := {
  member_id : N;
  top_role : Role
}.

Record Guild := {
  guild_id : N;
  owner_id : N
}.

Record Channel := {
  channel_id : N;
  channel_mention : string;
  permissions_for : N -> Permissions   (* by member id *)
}.

Record Attachment := {
  content_type : option string;
  proxy_url : string
}.

Record Message := {
  message_id : N;
  channel : N;                (* id of the channel it was sent in *)
  author : N;                 (* id of its author *)
  content : string;
  attachments : list Attachment
}.

(** [a < b] on two roles of the guild [g]: the default role (whose id
    is the guild's) is the lowest; otherwise by position, ties broken
    by id, the older role ranking higher. *)
Definition role_lt (g : N) (a b : Role) : bool :=
  if (role_id a =? g)%N then negb (role_id b =? g)%N
  else if position a <? position b then true
  else if position a =? position b then (role_id b <? role_id a)%N
  else false.

(** [a > b] *)
Definition role_gt (g : N) (a b : Role) : bool := role_lt g b a.

(** The reply to an HTTP request, reduced to its [content-type] header. *)
Record Response := {
  header_content_type : option string
}.

End Discord.

(* ===================================================================== *)
(** ** Effects: the world, exceptions and the [io] monad *)
(* ===================================================================== *)

Module Effects.
Import Discord.

Inductive exn :=
| InputError (msg : string)                  (* utils.exceptions *)
| TimeoutError                               (* asyncio *)
| ValueError
| TypeError
| KeyError (key : string)
| Forbidden                                  (* discord *)
| NotFound
| ChannelNotFound (argument : string)        (* discord.ext.commands *)
| RoleNotFound (argument : string)
| MemberNotFound (argument : string)
| InvalidURL (url : string)                  (* aiohttp *)
| ClientConnectionError.

(** What the helpers can change or observe besides their arguments. *)
Record World := {
  transcript : list N;      (* ids of the messages still present *)
  undeletable : list N;     (* ids of messages the bot has no right to delete *)
  http_log : list string;   (* URLs requested through the bot's session, latest first *)
  clock : Z;                (* what the next reading of the clock gives, in microseconds *)
  tick : Z                  (* the time that passes from one reading to the next *)
}.

Inductive outcome (A : Type) :=
| Return (a : A)
| Raise (e : exn).
Arguments Return {A} a.
Arguments Raise {A} e.

Definition io (A : Type) : Type := World -> outcome A * World.

Definition ret {A} (a : A) : io A := fun w => (Return a, w).

Definition raise {A} (e : exn) : io A := fun w => (Raise e, w).

Definition bind {A B} (c : io A) (k : A -> io B) : io B :=
  fun w =>
    match c w with
    | (Return a, w') => k a w'
    | (Raise e, w') => (Raise e, w')
    end.

(** [try: body / except <handled>: ... / else: orelse]: the handler sees
    the exceptions of [body] only, never those of [orelse]. *)
Definition try_except_else {A B} (body : io A)
    (handler : exn -> option (io B)) (orelse : A -> io B) : io B :=
  fun w =>
    match body w with
    | (Return a, w') => orelse a w'
    | (Raise e, w') =>
        match handler e with
        | Some h => h w'
        | None => (Raise e, w')
        end
    end.

(** [try: body / except <handled>: ...] *)
Definition try_except {A} (body : io A) (handler : exn -> option (io A)) : io A :=
  try_except_else body handler ret.

(** [with suppress(E): body], for a body that assigns a variable whose
    value before the block is [dflt]. *)
Definition suppress {A} (suppressed : exn -> bool) (dflt : A) (body : io A) : io A :=
  try_except body (fun e => if suppressed e then Some (ret dflt) else None).

(** An arrival on the bot's event stream: seconds elapsed since the wait
    began, and the message. *)
Definition Event : Type := Z * Message.

(** The first event that arrives before the deadline and passes [check]. *)
Definition first_match (check : Message -> bool) (timeout : Z)
    (events : list Event) : option Message :=
  option_map snd (find (fun e => ((fst e <? timeout) && check (snd e))%bool) events).

(** [bot.wait_for("message", check=check, timeout=timeout)] against the
    arrivals [events], listed in order. *)
Definition wait_for (check : Message -> bool) (timeout : Z)
    (events : list Event) : io Message :=
  match first_match check timeout events with
  | Some m => ret m
  | None => raise TimeoutError
  end.

Definition mem_id (i : N) (l : list N) : bool := existsb (N.eqb i) l.

(** [message.delete()]: [NotFound] when the message is gone, [Forbidden]
    when the bot lacks the right, otherwise the message leaves the
    transcript.  These are the two failures [safe_delete] handles; any
    other failure of the request is outside this model. *)
Definition message_delete (m : Message) : io unit :=
  fun w =>
    if negb (mem_id (message_id m) (transcript w)) then (Raise NotFound, w)
    else if mem_id (message_id m) (undeletable w) then (Raise Forbidden, w)
    else (Return tt,
          {| transcript := filter (fun i => negb (i =? message_id m)%N) (transcript w);
             undeletable := undeletable w;
             http_log := http_log w;
             clock := clock w;
             tick := tick w |}).

(** The world one reading of the clock later. *)
Definition ticked (w : World) : World :=
  {| transcript := transcript w;
     undeletable := undeletable w;
     http_log := http_log w;
     clock := clock w + tick w;
     tick := tick w |}.

(** [datetime.now(tz=IST)]: gives the instant and lets time pass, so
    that two readings in a row differ by [tick]. *)
Definition datetime_now : io Z := fun w => (Return (clock w), ticked w).

(** [timedelta(hours=24)], in microseconds. *)
Definition hours24 : Z := 24 * 3600 * 1000000.

(** Records the request, then answers as the network does. *)
Definition http_get (net : string -> exn + Response) (url : string) : io Response :=
  fun w =>
    let w' := {| transcript := transcript w;
                 undeletable := undeletable w;
                 http_log := url :: http_log w;
                 clock := clock w;
                 tick := tick w |} in
    match net url with
    | inl e => (Raise e, w')
    | inr r => (Return r, w')
    end.

(** [res.headers["content-type"]] *)
Definition headers_content_type (r : Response) : io string :=
  match header_content_type r with
  | Some v => ret v
  | None => raise (KeyError "content-type")
  end.

End Effects.

Declare Scope io_scope.
Delimit Scope io_scope with io.
Notation "x <- c ;; k" := (Effects.bind c (fun x => k))
  (at level 61, c at next level, right associativity) : io_scope.
Notation "c ;; k" := (Effects.bind c (fun _ => k))
  (at level 61, right associativity) : io_scope.

(* ===================================================================== *)
(** ** The helpers of [src/utils/inputs.py] *)
(* ===================================================================== *)

Module Inputs.
Import Discord Effects.
Local Open Scope io_scope.

(** The invocation context [ctx], with the collaborators reached through
    it: the SDK's argument converters, the bot's HTTP session and the
    natural-language date parser (which is handed the relative base). *)
Record Context := {
  ctx_channel : Channel;
  ctx_author : Member;
  ctx_me : Member;
  ctx_guild : Guild;
  text_channel_converter : string -> option Channel;
  role_converter : string -> option Role;
  member_converter : string -> option Member;
  session_network : string -> exn + Response;
  dateparser_parse : string -> Z -> option Z
}.

(** [TextChannelConverter().convert(ctx, argument)] *)
Definition convert_text_channel (ctx : Context) (argument : string) : io Channel :=
  match text_channel_converter ctx argument with
  | Some c => ret c
  | None => raise (ChannelNotFound argument)
  end.

(** [RoleConverter().convert(ctx, argument)] *)
Definition convert_role (ctx : Context) (argument : string) : io Role :=
  match role_converter ctx argument with
  | Some r => ret r
  | None => raise (RoleNotFound argument)
  end.

(** [MemberConverter().convert(ctx, argument)] *)
Definition convert_member (ctx : Context) (argument : string) : io Member :=
  match member_converter ctx argument with
  | Some m => ret m
  | None => raise (MemberNotFound argument)
  end.

(** [safe_delete] *)
Definition safe_delete (message : Message) : io bool :=
  try_except_else (message_delete message)
    (fun e => match e with
              | Forbidden | NotFound => Some (ret false)
              | _ => None
              end)
    (fun _ => ret true).

(** [if delete_after: await safe_delete(message)] *)
Definition delete_if (delete_after : bool) (message : Message) : io unit :=
  if delete_after then (safe_delete message ;; ret tt) else ret tt.

(** The routing predicate used when the caller passes no [check]:
    [lambda m: m.channel == ctx.channel or m.author == ctx.author]. *)
Definition default_check (ctx : Context) (m : Message) : bool :=
  ((channel m =? channel_id (ctx_channel ctx))%N
   || (author m =? member_id (ctx_author ctx))%N)%bool.

(** [check or (lambda m: ...)] *)
Definition check_or_default (ctx : Context) (check : option (Message -> bool))
    : Message -> bool :=
  match check with
  | Some c => c
  | None => default_check ctx
  end.

Definition on_timeout {A} (msg : string) (e : exn) : option (io A) :=
  match e with
  | TimeoutError => Some (raise (InputError msg))
  | _ => None
  end.

(** *** channel_input *)

Definition channel_base_perms_error (channel : Channel) : string :=
  "Please make sure I have the following perms in " ++ channel_mention channel
    ++ ":" ++ Py.nl ++ "`read_messages`,`send_messages`,`embed_links`.".

Definition channel_strict_perms_error (channel : Channel) : string :=
  "Please make sure I have the following perms in " ++ channel_mention channel
    ++ ":" ++ Py.nl
    ++ "- `add reactions`" ++ Py.nl ++ "- `use external emojis`" ++ Py.nl
    ++ "- `manage channel`" ++ Py.nl ++ "- `manage permissions`" ++ Py.nl
    ++ "- `manage messages`".

Definition channel_timeout_error : string :=
  "You failed to select a channel in time. Try again!".

Definition channel_input (ctx : Context) (check : option (Message -> bool))
    (timeout : Z) (delete_after check_perms : bool) (events : list Event)
    : io Channel :=
  let check := check_or_default ctx check in
  try_except_else (wait_for check timeout events)
    (on_timeout channel_timeout_error)
    (fun message =>
       channel <- convert_text_channel ctx (content message) ;;
       let perms := permissions_for channel (member_id (ctx_me ctx)) in
       if negb (read_messages perms && send_messages perms && embed_links perms)
       then raise (InputError (channel_base_perms_error channel))
       else
         if (check_perms
             && negb (manage_channels perms && add_reactions perms
                      && use_external_emojis perms && manage_permissions perms
                      && manage_messages perms))%bool
         then raise (InputError (channel_strict_perms_error channel))
         else
           delete_if delete_after message ;;
           ret channel).

(** *** role_input *)

Definition role_timeout_error : string :=
  "You failed to select a role in time. Try again!".

Definition role_managed_error : string :=
  "Role is an integrated role and cannot be added manually.".

Definition role_above_me_error (ctx : Context) (role : Role) : string :=
  "The position of " ++ role_mention role
    ++ " is above my top role. So I can't give it to anyone." ++ Py.nl
    ++ "Kindly move " ++ role_mention (top_role (ctx_me ctx)) ++ " above "
    ++ role_mention role ++ " in Server Settings.".

Definition role_above_author_error (ctx : Context) (role : Role) : string :=
  "The position of " ++ role_mention role ++ " is above your top role "
    ++ role_mention (top_role (ctx_author ctx)) ++ ".".

Definition role_dangerous_error (role : Role) : string :=
  role_mention role ++ " has dangerous permissions.".

(** The [any((...))] over the five flags of [role.permissions]. *)
Definition dangerous (p : Permissions) : bool :=
  (administrator p || manage_channels p || manage_roles p
   || kick_members p || ban_members p)%bool.

Definition role_input (ctx : Context) (check : option (Message -> bool))
    (timeout : Z) (hierarchy check_perms delete_after : bool)
    (events : list Event) : io Role :=
  let check := check_or_default ctx check in
  let g := guild_id (ctx_guild ctx) in
  try_except_else
    (message <- wait_for check timeout events ;;
     role <- convert_role ctx (content message) ;;
     ret (message, role))
    (on_timeout role_timeout_error)
    (fun '(message, role) =>
       if managed role then raise (InputError role_managed_error)
       else if (hierarchy && role_gt g role (top_role (ctx_me ctx)))%bool
       then raise (InputError (role_above_me_error ctx role))
       else if (hierarchy
                && negb (member_id (ctx_author ctx) =? owner_id (ctx_guild ctx))%N
                && role_gt g role (top_role (ctx_author ctx)))%bool
       then raise (InputError (role_above_author_error ctx role))
       else if (check_perms && dangerous (permissions role))%bool
       then raise (InputError (role_dangerous_error role))
       else
         delete_if delete_after message ;;
         ret role).

(** *** member_input *)

Definition member_timeout_error : string :=
  "You failed to mention a member in time. Try again!".

Definition member_input (ctx : Context) (check : Message -> bool)
    (timeout : Z) (delete_after : bool) (events : list Event) : io Member :=
  try_except_else
    (message <- wait_for check timeout events ;;
     member <- convert_member ctx (content message) ;;
     ret (message, member))
    (on_timeout member_timeout_error)
    (fun '(message, member) =>
       delete_if delete_after message ;;
       ret member).

(** *** integer_input *)

Definition integer_timeout_error : string :=
  "You failed to select a number in time. Try again!".

(** The length gate of [new_check]: only when [limits[1]] is not [None]. *)
Definition too_long (limits : option Z * option Z) (s : string) : bool :=
  match snd limits with
  | Some high => Nat.ltb (Py.len (Py.str high)) (Py.len s)
  | None => false
  end.

(** The [else] branch of [new_check], once [digit] is parsed.  The last
    case cannot be reached: [any(limits)] is false there. *)
Definition limits_test (limits : option Z * option Z) (digit : Z) : bool :=
  if negb (Py.any2 limits) then true
  else
    match limits with
    | (Some low, Some high) =>
        if Py.all2 limits then ((low <=? digit) && (digit <=? high))%bool
        else low <=? digit
    | (Some low, None) => low <=? digit
    | (None, Some high) => high <=? digit
    | (None, None) => true
    end.

Definition new_check (check : Message -> bool) (limits : option Z * option Z)
    (message : Message) : bool :=
  if negb (check message) then false
  else if too_long limits (content message) then false
  else
    match Py.int (content message) with
    | None => false
    | Some digit => limits_test limits digit
    end.

Definition integer_input (ctx : Context) (check : option (Message -> bool))
    (timeout : Z) (limits : option Z * option Z) (delete_after : bool)
    (events : list Event) : io Z :=
  let check := check_or_default ctx check in
  try_except_else (wait_for (new_check check limits) timeout events)
    (on_timeout integer_timeout_error)
    (fun message =>
       delete_if delete_after message ;;
       match Py.int (content message) with
       | Some n => ret n
       | None => raise ValueError
       end).

(** *** time_input *)

Definition time_timeout_error : string :=
  "Timeout, You have't responsed in time. Try again!".

Definition time_format_error : string := "This isn't valid time format.".

(** [now > parsed] for an aware datetime and the parser's result;
    comparing with [None] raises [TypeError]. *)
Definition datetime_gt (now : Z) (parsed : option Z) : io bool :=
  match parsed with
  | Some t => ret (t <? now)
  | None => raise TypeError
  end.

Definition time_input (ctx : Context) (check : Message -> bool)
    (timeout : Z) (delete_after : bool) (events : list Event) : io Z :=
  try_except_else (wait_for check timeout events)
    (on_timeout time_timeout_error)
    (fun message =>
       try_except
         (base <- datetime_now ;;
          let parsed := dateparser_parse ctx (content message) base in
          delete_if delete_after message ;;
          now <- datetime_now ;;
          past <- datetime_gt now parsed ;;
          match parsed with
          | Some t => ret (if past then t + hours24 else t)
          | None => raise TypeError
          end)
         (fun e => match e with
                   | TypeError => Some (raise (InputError time_format_error))
                   | _ => None
                   end)).

(** *** image_input *)

Definition image_timeout_error : string := "Took too long. Good Bye.".

Definition _image_formats : list string :=
  ["image/png"; "image/jpeg"; "image/jpg"; "image/gif"].

Definition is_InvalidURL (e : exn) : bool :=
  match e with
  | InvalidURL _ => true
  | _ => false
  end.

(** [message.attachments and message.attachments[0].content_type in _image_formats] *)
Definition first_attachment_is_image (message : Message) : option Attachment :=
  match attachments message with
  | a :: _ =>
      match content_type a with
      | Some t => if Py.mem t _image_formats then Some a else None
      | None => None
      end
  | [] => None
  end.

(** [None] in the result is Python's [None]. *)
Definition image_input (ctx : Context) (check : Message -> bool)
    (timeout : Z) (delete_after : bool) (events : list Event)
    : io (option string) :=
  try_except_else (wait_for check timeout events)
    (on_timeout image_timeout_error)
    (fun message =>
       delete_if delete_after message ;;
       if String.eqb (Py.lower (Py.strip (content message))) "none" then ret None
       else
         match first_attachment_is_image message with
         | Some a => ret (Some (proxy_url a))
         | None =>
             suppress is_InvalidURL None
               (res <- http_get (session_network ctx) (content message) ;;
                ctype <- headers_content_type res ;;
                if Py.mem ctype _image_formats then ret (Some (content message))
                else ret None)
         end).

End Inputs.

(* ===================================================================== *)
(** ** Concrete contexts, messages and worlds used in the examples *)
(* ===================================================================== *)

Module Sample.
Import Discord Effects Inputs.

Definition no_perms : Permissions :=
  {| read_messages := false; send_messages := false; embed_links := false;
     manage_channels := false; add_reactions := false;
     use_external_emojis := false; manage_messages := false;
     administrator := false; manage_roles := false;
     kick_members := false; ban_members := false |}.

(** read, send and embed, nothing else. *)
Definition base_perms : Permissions :=
  {| read_messages := true; send_messages := true; embed_links := true;
     manage_channels := false; add_reactions := false;
     use_external_emojis := false; manage_messages := false;
     administrator := false; manage_roles := false;
     kick_members := false; ban_members := false |}.

(** read and embed, but not send. *)
Definition mute_perms : Permissions :=
  {| read_messages := true; send_messages := false; embed_links := true;
     manage_channels := false; add_reactions := false;
     use_external_emojis := false; manage_messages := false;
     administrator := false; manage_roles := false;
     kick_members := false; ban_members := false |}.

Definition admin_perms : Permissions :=
  {| read_messages := true; send_messages := true; embed_links := true;
     manage_channels := false; add_reactions := false;
     use_external_emojis := false; manage_messages := false;
     administrator := true; manage_roles := false;
     kick_members := false; ban_members := false |}.

Definition bot_role : Role :=
  {| role_id := 10; role_mention := "<@&10>"; position := 5;
     managed := true; permissions := base_perms |}.

Definition staff_role : Role :=
  {| role_id := 20; role_mention := "<@&20>"; position := 7;
     managed := false; permissions := base_perms |}.

(** An administrator role ranked above the bot's and the requester's. *)
Definition high_admin_role : Role :=
  {| role_id := 30; role_mention := "<@&30>"; position := 9;
     managed := false; permissions := admin_perms |}.

(** An administrator role ranked below the bot's. *)
Definition low_admin_role : Role :=
  {| role_id := 40; role_mention := "<@&40>"; position := 2;
     managed := false; permissions := admin_perms |}.

Definition me : Member := {| member_id := 1; top_role := bot_role |}.
Definition requester : Member := {| member_id := 2; top_role := staff_role |}.
Definition guild : Guild := {| guild_id := 100; owner_id := 3 |}.

Definition general : Channel :=
  {| channel_id := 50; channel_mention := "<#50>";
     permissions_for := fun _ => base_perms |}.

Definition readonly : Channel :=
  {| channel_id := 51; channel_mention := "<#51>";
     permissions_for := fun _ => mute_perms |}.

Definition ctx : Context :=
  {| ctx_channel := general;
     ctx_author := requester;
     ctx_me := me;
     ctx_guild := guild;
     text_channel_converter := fun s =>
       if String.eqb s "<#50>" then Some general
       else if String.eqb s "<#51>" then Some readonly
       else None;
     role_converter := fun s =>
       if String.eqb s "<@&30>" then Some high_admin_role
       else if String.eqb s "<@&40>" then Some low_admin_role
       else if String.eqb s "<@&20>" then Some staff_role
       else None;
     member_converter := fun s =>
       if String.eqb s "<@2>" then Some requester else None;
     session_network := fun url =>
       if String.eqb url "https://example.org/logo.png"
       then inr {| header_content_type := Some "image/png" |}
       else if String.eqb url "https://unreachable.example/logo.png"
       then inl ClientConnectionError
       else inl (InvalidURL url);
     dateparser_parse := fun s base =>
       if String.eqb s "now" then Some base
       else if String.eqb s "2 days ago" then Some (base - 2 * hours24)
       else if String.eqb s "in 1 hour" then Some (base + 3600 * 1000000)
       else if String.eqb s "1 hour ago" then Some (base - 3600 * 1000000)
       else None |}.

(** A message of the requester in the context's channel. *)
Definition says (id : N) (text : string) : Message :=
  {| message_id := id; channel := 50; author := 2; content := text;
     attachments := [] |}.

(** The same, arriving [t] seconds into the wait. *)
Definition at_ (t : Z) (id : N) (text : string) : Event := (t, says id text).

Definition world : World :=
  {| transcript := [1; 2; 3]%N; undeletable := []; http_log := [];
     clock := 1700000000000000; tick := 250000 |}.

End Sample.

(* ===================================================================== *)
(** ** Capabilities and what an error message names *)
(* ===================================================================== *)

Module Caps.
Import Discord.

(** The channel capabilities [channel_input] asks about. *)
Inductive Capability :=
| ReadMessages | SendMessages | EmbedLinks
| ManageChannel | AddReactions | ExternalEmojis
| ManagePermissions | ManageMessages.

Definition base_caps : list Capability :=
  [ReadMessages; SendMessages; EmbedLinks].

Definition strict_caps : list Capability :=
  [ManageChannel; AddReactions; ExternalEmojis; ManagePermissions; ManageMessages].

Definition has (p : Permissions) (c : Capability) : bool :=
  match c with
  | ReadMessages => read_messages p
  | SendMessages => send_messages p
  | EmbedLinks => embed_links p
  | ManageChannel => manage_channels p
  | AddReactions => add_reactions p
  | ExternalEmojis => use_external_emojis p
  | ManagePermissions => manage_permissions p
  | ManageMessages => manage_messages p
  end.

(** How the error texts of [channel_input] spell each capability. *)
Definition label (c : Capability) : string :=
  match c with
  | ReadMessages => "`read_messages`"
  | SendMessages => "`send_messages`"
  | EmbedLinks => "`embed_links`"
  | ManageChannel => "`manage channel`"
  | AddReactions => "`add reactions`"
  | ExternalEmojis => "`use external emojis`"
  | ManagePermissions => "`manage permissions`"
  | ManageMessages => "`manage messages`"
  end.

(** The text [msg] names the capability [c]. *)
Definition names (msg : string) (c : Capability) : bool :=
  Py.contains (label c) msg.

(** The required capabilities, by mode. *)
Definition required (strict : bool) (c : Capability) : bool :=
  match c with
  | ReadMessages | SendMessages | EmbedLinks => true
  | _ => strict
  end.

Definition all_caps : list Capability := base_caps ++ strict_caps.

End Caps.

(* ===================================================================== *)
(** ** string_input *)
(* ===================================================================== *)

Module Text.
Import Discord Effects Inputs.
Local Open Scope io_scope.

Definition string_timeout_error : string := "Took too long. Good Bye.".

Definition string_input (ctx : Context) (check : option (Message -> bool))
    (timeout : Z) (delete_after : bool) (events : list Event) : io string :=
  let check := check_or_default ctx check in
  try_except_else (wait_for check timeout events)
    (on_timeout string_timeout_error)
    (fun message =>
       delete_if delete_after message ;;
       ret (content message)).

End Text.

(* ===================================================================== *)
(** ** The button handlers of [src/cogs/esports/views/tourney/_buttons.py] *)
(* ===================================================================== *)

Module Buttons.
Import Discord Effects Inputs.

(** What the handlers put in a role field of the record: [SetRole]
    assigns [role.id], [SetPingRole] and [OpenRole] assign [role]. *)
Inductive RoleRef :=
| RoleId (id : N)
| RoleObject (role : Role).

(** The fields of the tourney record that the handlers assign. *)
Record Tourney := {
  name : string;
  registration_channel_id : N;
  confirm_channel_id : N;
  role_id : N;
  required_mentions : Z;
  ping_role_id : RoleRef;
  total_slots : Z;
  open_role_id : RoleRef;
  multiregister : bool;
  teamname_compulsion : bool;
  no_duplicate_name : bool;
  autodelete_rejected : bool;
  success_message : option string
}.

(** [record.registration_channel_id = x] *)
Definition set_registration_channel_id (x : N) (r : Tourney) : Tourney :=
  {| name := name r;
     registration_channel_id := x;
     confirm_channel_id := confirm_channel_id r;
     role_id := role_id r;
     required_mentions := required_mentions r;
     ping_role_id := ping_role_id r;
     total_slots := total_slots r;
     open_role_id := open_role_id r;
     multiregister := multiregister r;
     teamname_compulsion := teamname_compulsion r;
     no_duplicate_name := no_duplicate_name r;
     autodelete_rejected := autodelete_rejected r;
     success_message := success_message r |}.

(** [record.confirm_channel_id = x] *)
Definition set_confirm_channel_id (x : N) (r : Tourney) : Tourney :=
  {| name := name r;
     registration_channel_id := registration_channel_id r;
     confirm_channel_id := x;
     role_id := role_id r;
     required_mentions := required_mentions r;
     ping_role_id := ping_role_id r;
     total_slots := total_slots r;
     open_role_id := open_role_id r;
     multiregister := multiregister r;
     teamname_compulsion := teamname_compulsion r;
     no_duplicate_name := no_duplicate_name r;
     autodelete_rejected := autodelete_rejected r;
     success_message := success_message r |}.

(** [record.role_id = x] *)
Definition set_role_id (x : N) (r : Tourney) : Tourney :=
  {| name := name r;
     registration_channel_id := registration_channel_id r;
     confirm_channel_id := confirm_channel_id r;
     role_id := x;
     required_mentions := required_mentions r;
     ping_role_id := ping_role_id r;
     total_slots := total_slots r;
     open_role_id := open_role_id r;
     multiregister := multiregister r;
     teamname_compulsion := teamname_compulsion r;
     no_duplicate_name := no_duplicate_name r;
     autodelete_rejected := autodelete_rejected r;
     success_message := success_message r |}.

(** [record.required_mentions = x] *)
Definition set_required_mentions (x : Z) (r : Tourney) : Tourney :=
  {| name := name r;
     registration_channel_id := registration_channel_id r;
     confirm_channel_id := confirm_channel_id r;
     role_id := role_id r;
     required_mentions := x;
     ping_role_id := ping_role_id r;
     total_slots := total_slots r;
     open_role_id := open_role_id r;
     multiregister := multiregister r;
     teamname_compulsion := teamname_compulsion r;
     no_duplicate_name := no_duplicate_name r;
     autodelete_rejected := autodelete_rejected r;
     success_message := success_message r |}.

(** [record.ping_role_id = x] *)
Definition set_ping_role_id (x : RoleRef) (r : Tourney) : Tourney :=
  {| name := name r;
     registration_channel_id := registration_channel_id r;
     confirm_channel_id := confirm_channel_id r;
     role_id := role_id r;
     required_mentions := required_mentions r;
     ping_role_id := x;
     total_slots := total_slots r;
     open_role_id := open_role_id r;
     multiregister := multiregister r;
     teamname_compulsion := teamname_compulsion r;
     no_duplicate_name := no_duplicate_name r;
     autodelete_rejected := autodelete_rejected r;
     success_message := success_message r |}.

(** [record.total_slots = x] *)
Definition set_total_slots (x : Z) (r : Tourney) : Tourney :=
  {| name := name r;
     registration_channel_id := registration_channel_id r;
     confirm_channel_id := confirm_channel_id r;
     role_id := role_id r;
     required_mentions := required_mentions r;
     ping_role_id := ping_role_id r;
     total_slots := x;
     open_role_id := open_role_id r;
     multiregister := multiregister r;
     teamname_compulsion := teamname_compulsion r;
     no_duplicate_name := no_duplicate_name r;
     autodelete_rejected := autodelete_rejected r;
     success_message := success_message r |}.

(** [record.open_role_id = x] *)
Definition set_open_role_id (x : RoleRef) (r : Tourney) : Tourney :=
  {| name := name r;
     registration_channel_id := registration_channel_id r;
     confirm_channel_id := confirm_channel_id r;
     role_id := role_id r;
     required_mentions := required_mentions r;
     ping_role_id := ping_role_id r;
     total_slots := total_slots r;
     open_role_id := x;
     multiregister := multiregister r;
     teamname_compulsion := teamname_compulsion r;
     no_duplicate_name := no_duplicate_name r;
     autodelete_rejected := autodelete_rejected r;
     success_message := success_message r |}.

(** [record.multiregister = x] *)
Definition set_multiregister (x : bool) (r : Tourney) : Tourney :=
  {| name := name r;
     registration_channel_id := registration_channel_id r;
     confirm_channel_id := confirm_channel_id r;
     role_id := role_id r;
     required_mentions := required_mentions r;
     ping_role_id := ping_role_id r;
     total_slots := total_slots r;
     open_role_id := open_role_id r;
     multiregister := x;
     teamname_compulsion := teamname_compulsion r;
     no_duplicate_name := no_duplicate_name r;
     autodelete_rejected := autodelete_rejected r;
     success_message := success_message r |}.

(** [record.teamname_compulsion = x] *)
Definition set_teamname_compulsion (x : bool) (r : Tourney) : Tourney :=
  {| name := name r;
     registration_channel_id := registration_channel_id r;
     confirm_channel_id := confirm_channel_id r;
     role_id := role_id r;
     required_mentions := required_mentions r;
     ping_role_id := ping_role_id r;
     total_slots := total_slots r;
     open_role_id := open_role_id r;
     multiregister := multiregister r;
     teamname_compulsion := x;
     no_duplicate_name := no_duplicate_name r;
     autodelete_rejected := autodelete_rejected r;
     success_message := success_message r |}.

(** [record.no_duplicate_name = x] *)
Definition set_no_duplicate_name (x : bool) (r : Tourney) : Tourney :=
  {| name := name r;
     registration_channel_id := registration_channel_id r;
     confirm_channel_id := confirm_channel_id r;
     role_id := role_id r;
     required_mentions := required_mentions r;
     ping_role_id := ping_role_id r;
     total_slots := total_slots r;
     open_role_id := open_role_id r;
     multiregister := multiregister r;
     teamname_compulsion := teamname_compulsion r;
     no_duplicate_name := x;
     autodelete_rejected := autodelete_rejected r;
     success_message := success_message r |}.

(** [record.autodelete_rejected = x] *)
Definition set_autodelete_rejected (x : bool) (r : Tourney) : Tourney :=
  {| name := name r;
     registration_channel_id := registration_channel_id r;
     confirm_channel_id := confirm_channel_id r;
     role_id := role_id r;
     required_mentions := required_mentions r;
     ping_role_id := ping_role_id r;
     total_slots := total_slots r;
     open_role_id := open_role_id r;
     multiregister := multiregister r;
     teamname_compulsion := teamname_compulsion r;
     no_duplicate_name := no_duplicate_name r;
     autodelete_rejected := x;
     success_message := success_message r |}.

(** [record.success_message = x] *)
Definition set_success_message (x : option string) (r : Tourney) : Tourney :=
  {| name := name r;
     registration_channel_id := registration_channel_id r;
     confirm_channel_id := confirm_channel_id r;
     role_id := role_id r;
     required_mentions := required_mentions r;
     ping_role_id := ping_role_id r;
     total_slots := total_slots r;
     open_role_id := open_role_id r;
     multiregister := multiregister r;
     teamname_compulsion := teamname_compulsion r;
     no_duplicate_name := no_duplicate_name r;
     autodelete_rejected := autodelete_rejected r;
     success_message := x |}.

(** The calls a handler makes to collaborators that live outside the
    file; they are recorded in order, with their arguments. *)
Inductive Call :=
| Defer                                            (* interaction.response.defer() *)
| Simple (text : string) (image : option string)   (* ctx.simple(text, image=...) *)
| Success (text : string) (delete_after : Z)       (* ctx.success(text, n) *)
| Error (text : string) (delete_after : Z)         (* ctx.error(text, n) *)
| SafeDelete (prompt : string)                     (* ctx.safe_delete(m) *)
| RefreshView.                                     (* view.refresh_view() *)

(** The state a handler runs in: [view.record], the calls made so far
    (oldest first) and the world of the input helpers. *)
Record ViewState := {
  record : Tourney;
  calls : list Call;
  world : World
}.

Definition hio (A : Type) : Type := ViewState -> outcome A * ViewState.

Definition hret {A} (a : A) : hio A := fun v => (Return a, v).

Definition hbind {A B} (c : hio A) (k : A -> hio B) : hio B :=
  fun v =>
    match c v with
    | (Return a, v') => k a v'
    | (Raise e, v') => (Raise e, v')
    end.

(** An input helper run from a handler: it acts on the world only. *)
Definition lift {A} (c : io A) : hio A :=
  fun v =>
    let (o, w') := c (world v) in
    (o, {| record := record v; calls := calls v; world := w' |}).

Definition call (c : Call) : hio unit :=
  fun v => (Return tt,
            {| record := record v; calls := calls v ++ [c]; world := world v |}).

(** [self.view.record] *)
Definition get_record : hio Tourney := fun v => (Return (record v), v).

(** An assignment to a field of [self.view.record]. *)
Definition assign (f : Tourney -> Tourney) : hio unit :=
  fun v => (Return tt,
            {| record := f (record v); calls := calls v; world := world v |}).

Declare Scope hio_scope.
Delimit Scope hio_scope with hio.
Notation "x <- c ;; k" := (hbind c (fun x => k))
  (at level 61, c at next level, right associativity) : hio_scope.
Notation "c ;; k" := (hbind c (fun _ => k))
  (at level 61, right associativity) : hio_scope.
Local Open Scope hio_scope.

(** [m = await self.ctx.simple(text)]: the handle [m] is identified by
    the text of the prompt. *)
Definition simple (text : string) (image : option string) : hio string :=
  call (Simple text image) ;; hret text.

(** *** RegChannel.callback *)

Definition RegChannel_prompt : string :=
  "Mention the channel where you want to take registrations.".

(** [running_in id] answers
    [Tourney.filter(registration_channel_id=id).exists()]. *)
Definition RegChannel_callback (ctx : Context) (running_in : N -> bool)
    (events : list Event) : hio unit :=
  call Defer ;;
  m <- simple RegChannel_prompt None ;;
  channel <- lift (channel_input ctx None 120 true true events) ;;
  call (SafeDelete m) ;;
  if running_in (channel_id channel)
  then call (Error ("Another tourney is running in " ++ channel_mention channel ++ ".") 4)
  else
    assign (set_registration_channel_id (channel_id channel)) ;;
    call RefreshView.

(** *** ConfirmChannel.callback *)

Definition ConfirmChannel_prompt : string :=
  "Mention the channel where you want me to post registration confirm messages.".

Definition ConfirmChannel_callback (ctx : Context) (events : list Event) : hio unit :=
  call Defer ;;
  m <- simple ConfirmChannel_prompt None ;;
  channel <- lift (channel_input ctx None 120 true true events) ;;
  call (SafeDelete m) ;;
  assign (set_confirm_channel_id (channel_id channel)) ;;
  call RefreshView.

(** *** SetRole.callback *)

Definition SetRole_prompt : string :=
  "Mention the role you want to give for correct registration.".

Definition SetRole_callback (ctx : Context) (events : list Event) : hio unit :=
  call Defer ;;
  m <- simple SetRole_prompt None ;;
  role <- lift (role_input ctx None 120 true true true events) ;;
  call (SafeDelete m) ;;
  assign (set_role_id (Discord.role_id role)) ;;
  call RefreshView.

(** *** SetMentions.callback *)

Definition SetMentions_prompt : string :=
  "How many mentions are required for registration? (Max `10`)".

Definition SetMentions_callback (ctx : Context) (events : list Event) : hio unit :=
  call Defer ;;
  m <- simple SetMentions_prompt None ;;
  mentions <- lift (integer_input ctx None 120 (Some 0, Some 10) true events) ;;
  call (SafeDelete m) ;;
  assign (set_required_mentions mentions) ;;
  call RefreshView.

(** *** SetPingRole.callback *)

Definition SetPingRole_prompt : string :=
  "Mention the role you want to ping with registration open message.".

Definition SetPingRole_callback (ctx : Context) (events : list Event) : hio unit :=
  call Defer ;;
  m <- simple SetPingRole_prompt None ;;
  role <- lift (role_input ctx None 120 true true true events) ;;
  call (SafeDelete m) ;;
  assign (set_ping_role_id (RoleObject role)) ;;
  call RefreshView.

(** *** SetSlots.callback *)

Definition SetSlots_prompt : string :=
  "How many total slots are there? (Max `15000`)".

Definition SetSlots_callback (ctx : Context) (events : list Event) : hio unit :=
  call Defer ;;
  m <- simple SetSlots_prompt None ;;
  slots <- lift (integer_input ctx None 120 (Some 1, Some 15000) true events) ;;
  call (SafeDelete m) ;;
  assign (set_total_slots slots) ;;
  call RefreshView.

(** *** OpenRole.callback *)

Definition OpenRole_prompt : string :=
  "Mention the role for which you want to open/close registrations.".

Definition OpenRole_callback (ctx : Context) (events : list Event) : hio unit :=
  call Defer ;;
  m <- simple OpenRole_prompt None ;;
  role <- lift (role_input ctx None 120 true true true events) ;;
  call (SafeDelete m) ;;
  assign (set_open_role_id (RoleObject role)) ;;
  call RefreshView.

(** *** The four toggles *)

Definition MultiReg_callback : hio unit :=
  call Defer ;;
  r <- get_record ;;
  assign (set_multiregister (negb (multiregister r))) ;;
  r <- get_record ;;
  call (Success ("Now users **" ++ (if multiregister r then "can" else "can not")
                 ++ "** register more than once.") 3) ;;
  call RefreshView.

Definition TeamCompulsion_callback : hio unit :=
  call Defer ;;
  r <- get_record ;;
  assign (set_teamname_compulsion (negb (teamname_compulsion r))) ;;
  r <- get_record ;;
  call (Success ("Now Team Name **" ++ (if teamname_compulsion r then "is" else "is not")
                 ++ "** required to register.") 3) ;;
  call RefreshView.

Definition DuplicateTeamName_callback : hio unit :=
  call Defer ;;
  r <- get_record ;;
  assign (set_no_duplicate_name (negb (no_duplicate_name r))) ;;
  r <- get_record ;;
  call (Success ("Duplicate team names are now **"
                 ++ (if no_duplicate_name r then "allowed" else "not allowed")
                 ++ "**.") 3) ;;
  call RefreshView.

Definition AutodeleteRejected_callback : hio unit :=
  call Defer ;;
  r <- get_record ;;
  assign (set_autodelete_rejected (negb (autodelete_rejected r))) ;;
  r <- get_record ;;
  call (Success ("Rejected registrations will **"
                 ++ (if autodelete_rejected r then "be" else "not be")
                 ++ "** deleted automatically.") 3) ;;
  call RefreshView.

(** *** SuccessMessage.callback *)

(** [x if x else 'Not Set Yet.'] for the current success message. *)
Definition shown_success_message (r : Tourney) : string :=
  match success_message r with
  | Some s => match s with EmptyString => "Not Set Yet." | _ => s end
  | None => "Not Set Yet."
  end.

Definition SuccessMessage_prompt (r : Tourney) : string :=
  "What message do you want me to show for successful registration? This message will be sent to "
  ++ "DM of players who register successfully." ++ Py.nl ++ Py.nl
  ++ "**Current Success Message:**"
  ++ "```" ++ shown_success_message r ++ "```"
  ++ Py.nl ++ "`Kindly keep it under 500 characters. Enter none to remove it.`".

Definition SuccessMessage_image : string :=
  "https://cdn.discordapp.com/attachments/851846932593770496/900977642382163988/unknown.png".

(** [truncate_string] comes from the [utils] package and is taken as an
    argument. *)
Definition SuccessMessage_callback (truncate_string : string -> Z -> string)
    (ctx : Context) (events : list Event) : hio unit :=
  call Defer ;;
  r <- get_record ;;
  m <- simple (SuccessMessage_prompt r) (Some SuccessMessage_image) ;;
  msg <- lift (Text.string_input ctx None 120 true events) ;;
  call (SafeDelete m) ;;
  let msg := truncate_string msg 500 in
  if String.eqb (Py.strip (Py.lower msg)) "none" then
    call (Success "Removed Success Message." 3) ;;
    assign (set_success_message None) ;;
    call RefreshView
  else if String.eqb (Py.strip (Py.lower msg)) "cancel" then
    hret tt
  else
    call (Success "Success Message Updated." 3) ;;
    assign (set_success_message (Some msg)) ;;
    call RefreshView.

End Buttons.

(* ===================================================================== *)
(** ** General facts about waiting and deleting *)
(* ===================================================================== *)

Import Discord Effects Inputs.

Section Waiting.
Variable check : Message -> bool.
Variable timeout : Z.

Lemma wait_for_resolved (events : list Event) (m : Message) (w : World) :
  first_match check timeout events = Some m ->
  wait_for check timeout events w = (Return m, w).
Proof. unfold wait_for. intros ->. reflexivity. Qed.

Lemma wait_for_timed_out (events : list Event) (w : World) :
  first_match check timeout events = None ->
  wait_for check timeout events w = (Raise TimeoutError, w).
Proof. unfold wait_for. intros ->. reflexivity. Qed.

(** The message that resolves a wait passes the predicate. *)
Lemma first_match_passes (events : list Event) (m : Message) :
  first_match check timeout events = Some m -> check m = true.
Proof.
  unfold first_match.
  destruct find as [e|] eqn:F; simpl; [|discriminate].
  intros [= <-]. apply find_some in F. destruct F as [_ F].
  apply andb_true_iff in F. tauto.
Qed.

(** Events the predicate rejects are passed over. *)
Lemma first_match_skip (pre rest : list Event) :
  Forall (fun e => check (snd e) = false) pre ->
  first_match check timeout (pre ++ rest) = first_match check timeout rest.
Proof.
  unfold first_match. induction 1 as [|e pre He _ IH]; simpl; [reflexivity|].
  rewrite He, andb_false_r. exact IH.
Qed.


Lemma wait_for_skip (pre rest : list Event) :
  Forall (fun e => check (snd e) = false) pre ->
  wait_for check timeout (pre ++ rest) = wait_for check timeout rest.
Proof. intros H. unfold wait_for. now rewrite first_match_skip. Qed.
End Waiting.

(** With the two failures of [message_delete] caught, [safe_delete]
    returns, and it touches the transcript only. *)
Lemma safe_delete_frame (m : Message) (w : World) :
  exists b w', safe_delete m w = (Return b, w')
               /\ http_log w' = http_log w /\ clock w' = clock w
               /\ undeletable w' = undeletable w.
Proof.
  unfold safe_delete, try_except_else, message_delete.
  destruct (negb _); [exists false, w; auto|].
  destruct (mem_id _ (undeletable w)); [exists false, w; auto|].
  eexists true, _. split; [reflexivity|]. simpl. auto.
Qed.

Lemma delete_if_frame (d : bool) (m : Message) (w : World) :
  exists w', delete_if d m w = (Return tt, w')
             /\ http_log w' = http_log w /\ clock w' = clock w.
Proof.
  destruct d; simpl; [|now exists w].
  unfold bind. destruct (safe_delete_frame m w) as (b & w' & -> & H1 & H2 & _).
  now exists w'.
Qed.

(** With [delete_after] on, the world after the optional deletion is the
    one [safe_delete] leaves. *)
Lemma delete_if_true (m : Message) (w : World) :
  delete_if true m w = (Return tt, snd (safe_delete m w)).
Proof.
  simpl. unfold bind.
  destruct (safe_delete_frame m w) as (b & w' & -> & _). reflexivity.
Qed.

Lemma delete_if_false (m : Message) (w : World) :
  delete_if false m w = (Return tt, w).
Proof. reflexivity. Qed.

(* ===================================================================== *)
(** ** Facts about [int] and [str] *)
(* ===================================================================== *)




(** What [limits_test] enforces, case by case on how the limits are given. *)
Lemma limits_test_cases (low high : option Z) (digit : Z) :
  limits_test (low, high) digit =
    match low, high with
    | Some l, Some h =>
        if l =? 0 then (if h =? 0 then true else l <=? digit)
        else if h =? 0 then l <=? digit
        else ((l <=? digit) && (digit <=? h))%bool
    | Some l, None => if l =? 0 then true else l <=? digit
    | None, Some h => if h =? 0 then true else h <=? digit
    | None, None => true
    end.
Proof.
  unfold limits_test, Py.any2, Py.all2, Py.truthy; simpl.
  destruct low as [l|], high as [h|]; simpl;
    repeat match goal with |- context [?x =? 0] => destruct (x =? 0) end;
    reflexivity.
Qed.

(* ===================================================================== *)
(** ** integer_input *)
(* ===================================================================== *)

(** A message is turned away by one of the three tests of [new_check]:
    the length gate, the integer parse, or the test against the limits. *)
Definition fails_checks (limits : option Z * option Z) (m : Message) : bool :=
  (too_long limits (content m)
   || match Py.int (content m) with
      | None => true
      | Some digit => negb (limits_test limits digit)
      end)%bool.

Lemma fails_checks_rejected (check : Message -> bool)
    (limits : option Z * option Z) (m : Message) :
  fails_checks limits m = true -> new_check check limits m = false.
Proof.
  unfold fails_checks, new_check. intros H.
  destruct (negb (check m)); [reflexivity|].
  destruct (too_long limits (content m)); [reflexivity|].
  destruct (Py.int (content m)) as [d|]; [|reflexivity].
  simpl in H. now apply negb_true_iff in H.
Qed.

Lemma new_check_iff (check : Message -> bool)
    (limits : option Z * option Z) (m : Message) :
  new_check check limits m = (check m && negb (fails_checks limits m))%bool.
Proof.
  unfold fails_checks, new_check.
  destruct (check m); simpl; [|reflexivity].
  destruct (too_long limits (content m)); simpl; [reflexivity|].
  destruct (Py.int (content m)) as [d|]; simpl; [|reflexivity].
  now rewrite negb_involutive.
Qed.

(** The two ways [integer_input] ends. *)
Lemma integer_input_resolved (ctx : Context) (check : option (Message -> bool))
    (timeout : Z) (limits : option Z * option Z) (del : bool)
    (events : list Event) (w : World) (m : Message) :
  first_match (new_check (check_or_default ctx check) limits) timeout events = Some m ->
  exists v, Py.int (content m) = Some v
            /\ integer_input ctx check timeout limits del events w
               = (Return v, snd (delete_if del m w)).
Proof.
  intros F. pose proof (first_match_passes _ _ _ _ F) as P.
  unfold new_check in P.
  destruct (negb _); [discriminate|].
  destruct (too_long _ _); [discriminate|].
  destruct (Py.int (content m)) as [v|] eqn:E; [|discriminate].
  exists v. split; [reflexivity|].
  unfold integer_input, try_except_else.
  rewrite (wait_for_resolved _ _ _ _ w F). unfold bind.
  destruct (delete_if_frame del m w) as (w' & -> & _). now rewrite E.
Qed.

Lemma integer_input_timed_out (ctx : Context) (check : option (Message -> bool))
    (timeout : Z) (limits : option Z * option Z) (del : bool)
    (events : list Event) (w : World) :
  first_match (new_check (check_or_default ctx check) limits) timeout events = None ->
  integer_input ctx check timeout limits del events w
  = (Raise (InputError integer_timeout_error), w).
Proof.
  intros F. unfold integer_input, try_except_else.
  now rewrite (wait_for_timed_out _ _ _ w F).
Qed.

(** C1 (the code at the failing inputs).  With the limits [(0, 10)] that
    the "required mentions" button passes, [all(limits)] is false because
    [0] is falsy, so only [low <= digit] is tested: the content "99" is
    accepted and returned although it exceeds the declared upper bound.
    With an upper bound alone the comparison is [high <= digit]: under
    [(None, 10)] the content "5" is passed over and "99" is returned.  With
    the lower bound [0] alone [any(limits)] is false and "-5" is returned. *)
Theorem integer_input_bounds_not_enforced :
  new_check (default_check Sample.ctx) (Some 0, Some 10) (Sample.says 1 "99") = true
  /\ fst (integer_input Sample.ctx None 120 (Some 0, Some 10) true
            [Sample.at_ 5 1 "99"] Sample.world) = Return 99
  /\ fst (integer_input Sample.ctx None 120 (None, Some 10) true
            [Sample.at_ 5 1 "5"; Sample.at_ 9 2 "99"] Sample.world) = Return 99
  /\ fst (integer_input Sample.ctx None 120 (None, Some 10) true
            [Sample.at_ 5 1 "5"] Sample.world)
     = Raise (InputError integer_timeout_error)
  /\ fst (integer_input Sample.ctx None 120 (Some 0, None) true
            [Sample.at_ 5 1 "-5"] Sample.world) = Return (-5).
Proof. repeat split; vm_compute; reflexivity. Qed.



(** [integer_input] ends in exactly one of two ways: it returns the
    integer carried by the first message that passes [new_check], or, when
    no message passes before the deadline, it raises the time-out
    [InputError] and leaves the world as it was; no other [InputError] and
    no other exception comes out.  A message turned away by the length
    gate, by the integer parse or by [limits_test] is passed over: the
    call behaves as if that message had never arrived. *)
Lemma integer_input_ok_or_timeout (ctx : Context)
    (check : option (Message -> bool)) (timeout : Z)
    (limits : option Z * option Z) (del : bool)
    (pre rest : list Event) (w : World) :
  Forall (fun e => fails_checks limits (snd e) = true) pre ->
  integer_input ctx check timeout limits del (pre ++ rest) w
  = integer_input ctx check timeout limits del rest w
  /\ ((exists m v,
         first_match (new_check (check_or_default ctx check) limits) timeout rest = Some m
         /\ Py.int (content m) = Some v
         /\ integer_input ctx check timeout limits del rest w
            = (Return v, snd (delete_if del m w)))
      \/ (first_match (new_check (check_or_default ctx check) limits) timeout rest = None
          /\ integer_input ctx check timeout limits del rest w
             = (Raise (InputError integer_timeout_error), w))).
Proof.
  intros H. split.
  - unfold integer_input. rewrite wait_for_skip; [reflexivity|].
    eapply Forall_impl; [|exact H]. intros e. apply fails_checks_rejected.
  - destruct (first_match (new_check (check_or_default ctx check) limits) timeout rest)
      as [m|] eqn:F.
    + left. destruct (integer_input_resolved ctx check timeout limits del rest w m F)
        as (v & E & R).
      now exists m, v.
    + right. split; [reflexivity|]. now apply integer_input_timed_out.
Qed.

Lemma integer_input_ok_or_timeout_witness :
  Forall (fun e => fails_checks (Some 1, Some 15000) (snd e) = true)
    [Sample.at_ 1 1 "0"; Sample.at_ 2 2 "20000"; Sample.at_ 3 2 "many";
     Sample.at_ 4 2 "150000"]
  /\ integer_input Sample.ctx None 120 (Some 1, Some 15000) true
       ([Sample.at_ 1 1 "0"; Sample.at_ 2 2 "20000"; Sample.at_ 3 2 "many";
         Sample.at_ 4 2 "150000"] ++ [Sample.at_ 5 3 "15000"]) Sample.world
     = integer_input Sample.ctx None 120 (Some 1, Some 15000) true
         [Sample.at_ 5 3 "15000"] Sample.world.
Proof.
  assert (H : Forall (fun e => fails_checks (Some 1, Some 15000) (snd e) = true)
                [Sample.at_ 1 1 "0"; Sample.at_ 2 2 "20000"; Sample.at_ 3 2 "many";
                 Sample.at_ 4 2 "150000"])
    by (repeat constructor).
  split; [exact H|].
  exact (proj1 (integer_input_ok_or_timeout Sample.ctx None 120
                  (Some 1, Some 15000) true _ [Sample.at_ 5 3 "15000"]
                  Sample.world H)).
Defined.

(** Where both limits are given and neither is [0], [limits_test] is the
    two-sided test; where only a non-zero [low] is given it is the lower
    test. *)
Lemma limits_test_nonzero (low high digit : Z) :
  low <> 0 ->
  (high <> 0 ->
   limits_test (Some low, Some high) digit
   = ((low <=? digit) && (digit <=? high))%bool)
  /\ limits_test (Some low, None) digit = (low <=? digit).
Proof.
  intros L. rewrite !limits_test_cases.
  apply Z.eqb_neq in L. rewrite L. split; [|reflexivity].
  intros H. apply Z.eqb_neq in H. now rewrite H.
Qed.

(** C3 (the code at the failing input).  Under the limits [(0, 10)] the
    content "99" violates the declared bounds, yet it is not passed over:
    it resolves the wait, so the call returns [99] instead of going on to
    the later "7" or timing out.  The outcome is still a value or the
    time-out, never another [InputError]. *)
Theorem integer_input_out_of_bounds_not_skipped :
  Py.int "99" = Some 99
  /\ (0 <=? 99) && (99 <=? 10) = false
  /\ fails_checks (Some 0, Some 10) (Sample.says 1 "99") = false
  /\ integer_input Sample.ctx None 120 (Some 0, Some 10) false
       [Sample.at_ 5 1 "99"; Sample.at_ 9 2 "7"] Sample.world
     = (Return 99, Sample.world)
  /\ integer_input Sample.ctx None 120 (Some 0, Some 10) false
       [Sample.at_ 9 2 "7"] Sample.world
     = (Return 7, Sample.world).
Proof. repeat split. Qed.

(* ===================================================================== *)
(** ** channel_input, role_input and member_input *)
(* ===================================================================== *)

Ltac run_wait F w :=
  unfold try_except_else, bind;
  rewrite ?(wait_for_resolved _ _ _ _ w F), ?(wait_for_timed_out _ _ _ w F).

(** C4 (counterexample).  The requester answers "lobby", which the channel
    converter cannot resolve: [channel_input] ends with the converter's own
    [ChannelNotFound], not with an [InputError]; likewise [member_input]
    ends with [MemberNotFound]. *)
Lemma unresolved_reference_counterexample :
  first_match (default_check Sample.ctx) 120 [Sample.at_ 5 1 "lobby"]
    = Some (Sample.says 1 "lobby")
  /\ text_channel_converter Sample.ctx "lobby" = None
  /\ member_converter Sample.ctx "lobby" = None
  /\ channel_input Sample.ctx None 120 true true [Sample.at_ 5 1 "lobby"] Sample.world
     = (Raise (ChannelNotFound "lobby"), Sample.world)
  /\ member_input Sample.ctx (default_check Sample.ctx) 120 true
       [Sample.at_ 5 1 "lobby"] Sample.world
     = (Raise (MemberNotFound "lobby"), Sample.world)
  /\ ~ (exists reason,
          fst (channel_input Sample.ctx None 120 true true
                 [Sample.at_ 5 1 "lobby"] Sample.world) = Raise (InputError reason)).
Proof.
  repeat split; try (vm_compute; reflexivity).
  intros [reason H]. vm_compute in H. discriminate.
Qed.

(** C4 (amended).  When the content of the message that resolved the wait
    cannot be resolved, [channel_input] (respectively [member_input])
    fails by letting the converter's not-found error for that content
    through, [ChannelNotFound] (respectively [MemberNotFound]); the world
    is left as it was, so the message is not deleted. *)
Theorem unresolved_reference_propagates (ctx : Context) (timeout : Z)
    (del : bool) (events : list Event) (w : World) (m : Message) :
  (forall (check : option (Message -> bool)) (check_perms : bool),
     first_match (check_or_default ctx check) timeout events = Some m ->
     text_channel_converter ctx (content m) = None ->
     channel_input ctx check timeout del check_perms events w
     = (Raise (ChannelNotFound (content m)), w))
  /\ (forall check : Message -> bool,
        first_match check timeout events = Some m ->
        member_converter ctx (content m) = None ->
        member_input ctx check timeout del events w
        = (Raise (MemberNotFound (content m)), w)).
Proof.
  split.
  - intros check cp F C. unfold channel_input. run_wait F w.
    unfold convert_text_channel. now rewrite C.
  - intros check F C. unfold member_input. run_wait F w.
    unfold convert_member. now rewrite C.
Qed.

Lemma unresolved_reference_propagates_witness :
  channel_input Sample.ctx None 120 true true [Sample.at_ 5 1 "lobby"] Sample.world
  = (Raise (ChannelNotFound "lobby"), Sample.world)
  /\ member_input Sample.ctx (default_check Sample.ctx) 120 true
       [Sample.at_ 5 1 "lobby"] Sample.world
     = (Raise (MemberNotFound "lobby"), Sample.world).
Proof.
  split.
  - apply (proj1 (unresolved_reference_propagates Sample.ctx 120 true
                    [Sample.at_ 5 1 "lobby"] Sample.world (Sample.says 1 "lobby")));
      reflexivity.
  - apply (proj2 (unresolved_reference_propagates Sample.ctx 120 true
                    [Sample.at_ 5 1 "lobby"] Sample.world (Sample.says 1 "lobby")));
      reflexivity.
Defined.

(** C5 (counterexample).  Hierarchy and permission checks are both on and
    the requester names an administrator role that ranks above the bot's
    top role: the hierarchy check fires first and the reason given is the
    role's position, not its dangerous permissions. *)
Lemma dangerous_role_counterexample :
  role_converter Sample.ctx "<@&30>" = Some Sample.high_admin_role
  /\ administrator (permissions Sample.high_admin_role) = true
  /\ role_input Sample.ctx None 120 true true true
       [Sample.at_ 5 1 "<@&30>"] Sample.world
     = (Raise (InputError (role_above_me_error Sample.ctx Sample.high_admin_role)),
        Sample.world)
  /\ role_above_me_error Sample.ctx Sample.high_admin_role
     <> role_dangerous_error Sample.high_admin_role.
Proof.
  repeat split; try (vm_compute; reflexivity).
  intros H. apply String.eqb_eq in H. vm_compute in H. discriminate.
Qed.

(** C5 (amended).  With hierarchy and permission checks on, a resolved
    role that carries one of the five dangerous permissions is always
    turned down with an [InputError], and the world is left as it was.
    The reason is that of the first check that fails, in this order: the
    role is managed; it ranks above the bot's top role; the requester
    does not own the guild and it ranks above the requester's top role;
    it has dangerous permissions.  So the reason is the
    dangerous-permissions one exactly when the three earlier checks
    pass. *)
Theorem role_input_dangerous (ctx : Context) (check : option (Message -> bool))
    (timeout : Z) (del : bool) (events : list Event) (w : World)
    (m : Message) (role : Role) :
  first_match (check_or_default ctx check) timeout events = Some m ->
  role_converter ctx (content m) = Some role ->
  dangerous (permissions role) = true ->
  role_input ctx check timeout true true del events w
  = (Raise (InputError
       (if managed role then role_managed_error
        else if role_gt (guild_id (ctx_guild ctx)) role (top_role (ctx_me ctx))
        then role_above_me_error ctx role
        else if (negb (member_id (ctx_author ctx) =? owner_id (ctx_guild ctx))%N
                 && role_gt (guild_id (ctx_guild ctx)) role
                      (top_role (ctx_author ctx)))%bool
        then role_above_author_error ctx role
        else role_dangerous_error role)), w)
  /\ (managed role = false ->
      role_gt (guild_id (ctx_guild ctx)) role (top_role (ctx_me ctx)) = false ->
      member_id (ctx_author ctx) = owner_id (ctx_guild ctx)
      \/ role_gt (guild_id (ctx_guild ctx)) role (top_role (ctx_author ctx)) = false ->
      role_input ctx check timeout true true del events w
      = (Raise (InputError (role_dangerous_error role)), w)).
Proof.
  intros F C D.
  assert (E : role_input ctx check timeout true true del events w
              = (Raise (InputError
                   (if managed role then role_managed_error
                    else if role_gt (guild_id (ctx_guild ctx)) role
                              (top_role (ctx_me ctx))
                    then role_above_me_error ctx role
                    else if (negb (member_id (ctx_author ctx)
                                   =? owner_id (ctx_guild ctx))%N
                             && role_gt (guild_id (ctx_guild ctx)) role
                                  (top_role (ctx_author ctx)))%bool
                    then role_above_author_error ctx role
                    else role_dangerous_error role)), w)).
  { unfold role_input. run_wait F w. unfold convert_role. rewrite C.
    cbn [ret andb]. rewrite D. unfold raise.
    destruct (managed role); [reflexivity|].
    destruct (role_gt _ role (top_role (ctx_me ctx))); [reflexivity|].
    destruct (negb _ && _)%bool; reflexivity. }
  split; [exact E|].
  intros M A B. rewrite E, M, A.
  destruct B as [B|B].
  - apply N.eqb_eq in B. now rewrite B.
  - now rewrite B, andb_false_r.
Qed.

(** A requester whose top role ranks below every other sample role. *)
Definition newcomer_role : Role :=
  {| role_id := 60; role_mention := "<@&60>"; position := 1;
     managed := false; permissions := Sample.base_perms |}.

Definition newcomer_ctx : Context :=
  {| ctx_channel := ctx_channel Sample.ctx;
     ctx_author := {| member_id := 2; top_role := newcomer_role |};
     ctx_me := ctx_me Sample.ctx;
     ctx_guild := ctx_guild Sample.ctx;
     text_channel_converter := text_channel_converter Sample.ctx;
     role_converter := role_converter Sample.ctx;
     member_converter := member_converter Sample.ctx;
     session_network := session_network Sample.ctx;
     dateparser_parse := dateparser_parse Sample.ctx |}.

Lemma role_input_dangerous_witness :
  role_input Sample.ctx None 120 true true true
    [Sample.at_ 5 1 "<@&40>"] Sample.world
  = (Raise (InputError (role_dangerous_error Sample.low_admin_role)), Sample.world)
  /\ role_input newcomer_ctx None 120 true true true
       [Sample.at_ 5 1 "<@&40>"] Sample.world
     = (Raise (InputError (role_above_author_error newcomer_ctx Sample.low_admin_role)),
        Sample.world)
  /\ role_input Sample.ctx None 120 true true true
       [Sample.at_ 5 1 "<@&30>"] Sample.world
     = (Raise (InputError (role_above_me_error Sample.ctx Sample.high_admin_role)),
        Sample.world).
Proof.
  split; [|split].
  - apply (proj2 (role_input_dangerous Sample.ctx None 120 true
                    [Sample.at_ 5 1 "<@&40>"] Sample.world
                    (Sample.says 1 "<@&40>") Sample.low_admin_role
                    eq_refl eq_refl eq_refl)).
    + reflexivity.
    + reflexivity.
    + right. reflexivity.
  - exact (proj1 (role_input_dangerous newcomer_ctx None 120 true
                    [Sample.at_ 5 1 "<@&40>"] Sample.world
                    (Sample.says 1 "<@&40>") Sample.low_admin_role
                    eq_refl eq_refl eq_refl)).
  - exact (proj1 (role_input_dangerous Sample.ctx None 120 true
                    [Sample.at_ 5 1 "<@&30>"] Sample.world
                    (Sample.says 1 "<@&30>") Sample.high_admin_role
                    eq_refl eq_refl eq_refl)).
Defined.

(* ===================================================================== *)
(** ** Channel capabilities *)
(* ===================================================================== *)

Lemma prefix_append (n t : string) : prefix n (n ++ t) = true.
Proof.
  induction n as [|a n IH]; simpl; [destruct t; reflexivity|].
  destruct (ascii_dec a a); [exact IH|congruence].
Qed.

Lemma contains_append_r (n s t : string) :
  Py.contains n t = true -> Py.contains n (s ++ t) = true.
Proof.
  intros H. induction s as [|a s IH]; simpl; [exact H|].
  rewrite IH. apply orb_true_r.
Qed.

Lemma contains_here (n t : string) : Py.contains n (n ++ t) = true.
Proof.
  destruct n as [|a n].
  - destruct t; reflexivity.
  - change (Py.contains (String a n) (String a n ++ t))
      with (prefix (String a n) (String a n ++ t)
            || Py.contains (String a n) (n ++ t))%bool.
    now rewrite prefix_append.
Qed.

(** The base text names the three base capabilities and the strict text
    the five strict ones, whatever the channel. *)
Lemma base_error_names (ch : Channel) (c : Caps.Capability) :
  In c Caps.base_caps -> Caps.names (channel_base_perms_error ch) c = true.
Proof.
  unfold Caps.names, channel_base_perms_error. intros H.
  do 2 apply contains_append_r.
  simpl in H. decompose [or] H; subst; try reflexivity. contradiction.
Qed.

Lemma strict_error_names (ch : Channel) (c : Caps.Capability) :
  In c Caps.strict_caps -> Caps.names (channel_strict_perms_error ch) c = true.
Proof.
  unfold Caps.names, channel_strict_perms_error. intros H.
  do 2 apply contains_append_r.
  simpl in H. decompose [or] H; subst; try reflexivity. contradiction.
Qed.

(** C8 (counterexample).  In the channel <#51> the bot can read and embed
    but not send.  The request is rejected, and the reason names
    [read_messages] and [embed_links] as well, which are not missing: the
    text lists the whole base set, not the missing capabilities only. *)
Lemma channel_error_names_counterexample :
  text_channel_converter Sample.ctx "<#51>" = Some Sample.readonly
  /\ channel_input Sample.ctx None 120 true false
       [Sample.at_ 5 1 "<#51>"] Sample.world
     = (Raise (InputError (channel_base_perms_error Sample.readonly)), Sample.world)
  /\ Caps.has (permissions_for Sample.readonly (member_id Sample.me))
       Caps.ReadMessages = true
  /\ Caps.names (channel_base_perms_error Sample.readonly) Caps.ReadMessages = true
  /\ ~ (forall c : Caps.Capability,
          Caps.names (channel_base_perms_error Sample.readonly) c = true
          <-> Caps.required false c = true
              /\ Caps.has (permissions_for Sample.readonly (member_id Sample.me)) c
                 = false).
Proof.
  repeat split; try (vm_compute; reflexivity).
  intros H. destruct (proj1 (H Caps.ReadMessages)) as [_ A].
  - vm_compute; reflexivity.
  - vm_compute in A. discriminate.
Qed.

(** [all((read_messages, send_messages, embed_links))] *)
Definition has_base (p : Permissions) : bool :=
  (read_messages p && send_messages p && embed_links p)%bool.

(** The [all((...))] over the five strict flags. *)
Definition has_strict (p : Permissions) : bool :=
  (manage_channels p && add_reactions p && use_external_emojis p
   && manage_permissions p && manage_messages p)%bool.

Lemma has_base_forallb (p : Permissions) :
  has_base p = forallb (Caps.has p) Caps.base_caps.
Proof. unfold has_base. simpl. now rewrite andb_true_r, andb_assoc. Qed.

Lemma has_strict_forallb (p : Permissions) :
  has_strict p = forallb (Caps.has p) Caps.strict_caps.
Proof. unfold has_strict. simpl. now rewrite andb_true_r, !andb_assoc. Qed.

(** What [channel_input] does once the content resolved to a channel. *)
Lemma channel_input_resolved (ctx : Context) (check : option (Message -> bool))
    (timeout : Z) (del strict : bool) (events : list Event) (w : World)
    (m : Message) (ch : Channel) :
  first_match (check_or_default ctx check) timeout events = Some m ->
  text_channel_converter ctx (content m) = Some ch ->
  channel_input ctx check timeout del strict events w
  = if negb (has_base (permissions_for ch (member_id (ctx_me ctx))))
    then (Raise (InputError (channel_base_perms_error ch)), w)
    else if (strict && negb (has_strict (permissions_for ch (member_id (ctx_me ctx)))))%bool
    then (Raise (InputError (channel_strict_perms_error ch)), w)
    else (Return ch, snd (delete_if del m w)).
Proof.
  intros F C. unfold channel_input. run_wait F w.
  unfold convert_text_channel. rewrite C. cbn [ret].
  fold (has_base (permissions_for ch (member_id (ctx_me ctx)))).
  fold (has_strict (permissions_for ch (member_id (ctx_me ctx)))).
  destruct (negb (has_base _)); [reflexivity|].
  destruct (strict && _)%bool; [reflexivity|].
  destruct (delete_if_frame del m w) as (w' & -> & _). reflexivity.
Qed.

(** C8 (amended).  For a content that resolves to a channel [ch], with
    [p] the bot's permissions there:
    - if one of read/send/embed is missing, the request is rejected in
      either mode with the base text;
    - if the three are present and strict mode is off, the channel is
      accepted, whatever the strict capabilities;
    - if the three are present, strict mode is on and one of the five
      strict capabilities is missing, the request is rejected with the
      strict text;
    - the base text names each of the three base capabilities and the
      strict text each of the five strict ones, so a rejection always names
      every missing capability of the set that failed (and the present
      ones of that set as well). *)
Theorem channel_input_capabilities (ctx : Context)
    (check : option (Message -> bool)) (timeout : Z) (del : bool)
    (events : list Event) (w : World) (m : Message) (ch : Channel) :
  first_match (check_or_default ctx check) timeout events = Some m ->
  text_channel_converter ctx (content m) = Some ch ->
  let p := permissions_for ch (member_id (ctx_me ctx)) in
  (forall (strict : bool) (c : Caps.Capability),
     In c Caps.base_caps -> Caps.has p c = false ->
     channel_input ctx check timeout del strict events w
     = (Raise (InputError (channel_base_perms_error ch)), w)
     /\ Caps.names (channel_base_perms_error ch) c = true)
  /\ (forallb (Caps.has p) Caps.base_caps = true ->
      channel_input ctx check timeout del false events w
      = (Return ch, snd (delete_if del m w)))
  /\ (forallb (Caps.has p) Caps.base_caps = true ->
      forall c : Caps.Capability,
        In c Caps.strict_caps -> Caps.has p c = false ->
        channel_input ctx check timeout del true events w
        = (Raise (InputError (channel_strict_perms_error ch)), w)
        /\ Caps.names (channel_strict_perms_error ch) c = true)
  /\ (forallb (Caps.has p) Caps.all_caps = true ->
      forall strict : bool,
        channel_input ctx check timeout del strict events w
        = (Return ch, snd (delete_if del m w)))
  /\ (forall c : Caps.Capability,
        (In c Caps.base_caps -> Caps.names (channel_base_perms_error ch) c = true)
        /\ (In c Caps.strict_caps ->
            Caps.names (channel_strict_perms_error ch) c = true)).
Proof.
  intros F C p.
  pose proof (channel_input_resolved ctx check timeout del) as R.
  specialize (fun strict => R strict events w m ch F C). fold p in R.
  repeat split.
  - rewrite R, has_base_forallb.
    assert (E : forallb (Caps.has p) Caps.base_caps = false).
    { apply not_true_is_false. intros A. rewrite forallb_forall in A.
      specialize (A c H). congruence. }
    now rewrite E.
  - now apply base_error_names.
  - intros B. rewrite R, has_base_forallb, B. reflexivity.
  - rewrite R, has_base_forallb, H, has_strict_forallb.
    assert (E : forallb (Caps.has p) Caps.strict_caps = false).
    { apply not_true_is_false. intros A. rewrite forallb_forall in A.
      specialize (A c H0). congruence. }
    now rewrite E.
  - now apply strict_error_names.
  - intros A strict. unfold Caps.all_caps in A. rewrite forallb_app in A.
    apply andb_true_iff in A. destruct A as [A B].
    rewrite R, has_base_forallb, A, has_strict_forallb, B.
    now rewrite andb_false_r.
  - apply base_error_names.
  - apply strict_error_names.
Qed.

Lemma channel_input_capabilities_witness :
  channel_input Sample.ctx None 120 true false [Sample.at_ 5 1 "<#50>"] Sample.world
  = (Return Sample.general,
     snd (delete_if true (Sample.says 1 "<#50>") Sample.world))
  /\ channel_input Sample.ctx None 120 true true [Sample.at_ 5 1 "<#50>"] Sample.world
     = (Raise (InputError (channel_strict_perms_error Sample.general)), Sample.world).
Proof.
  pose proof (channel_input_capabilities Sample.ctx None 120 true
                [Sample.at_ 5 1 "<#50>"] Sample.world
                (Sample.says 1 "<#50>") Sample.general eq_refl eq_refl)
    as (_ & Off & On & _).
  split.
  - apply Off. reflexivity.
  - apply (On eq_refl Caps.ManageChannel); [simpl; auto | reflexivity].
Defined.

(* ===================================================================== *)
(** ** time_input *)
(* ===================================================================== *)

(** The optional deletion neither reads nor moves the clock. *)
Lemma delete_if_clock (d : bool) (m : Message) (w : World) :
  clock (snd (delete_if d m w)) = clock w
  /\ tick (snd (delete_if d m w)) = tick w.
Proof.
  destruct d; [|split; reflexivity].
  rewrite delete_if_true.
  unfold safe_delete, try_except_else, message_delete.
  destruct (negb _); [split; reflexivity|].
  destruct (mem_id _ (undeletable w)); split; reflexivity.
Qed.

(** What [time_input] does with the message that resolved the wait: the
    parser is given the first reading of the clock as its base, and the
    parse is compared with the second reading, one [tick] later. *)
Lemma time_input_resolved (ctx : Context) (check : Message -> bool)
    (timeout : Z) (del : bool) (events : list Event) (w : World) (m : Message) :
  first_match check timeout events = Some m ->
  time_input ctx check timeout del events w
  = (match dateparser_parse ctx (content m) (clock w) with
     | Some t => Return (if t <? clock w + tick w then t + hours24 else t)
     | None => Raise (InputError time_format_error)
     end, ticked (snd (delete_if del m (ticked w)))).
Proof.
  intros F. unfold time_input. run_wait F w.
  unfold try_except, try_except_else, bind, datetime_now.
  destruct (delete_if_clock del m (ticked w)) as [K _].
  destruct (delete_if_frame del m (ticked w)) as (w' & E & _).
  rewrite E in K. rewrite E. simpl in K. simpl. rewrite K.
  destruct (dateparser_parse ctx (content m) (clock w)) as [t|]; reflexivity.
Qed.

(** C7 (counterexample).  "2 days ago" parses to 48 hours before the
    parser's base; when the helper compares, that is in the past, so it
    returns that instant plus 24 hours, which is still about 24 hours in
    the past. *)
Lemma time_input_counterexample :
  dateparser_parse Sample.ctx "2 days ago" (clock Sample.world)
    = Some (clock Sample.world - 2 * hours24)
  /\ clock Sample.world - 2 * hours24 < clock Sample.world + tick Sample.world
  /\ fst (time_input Sample.ctx (default_check Sample.ctx) 120 false
            [Sample.at_ 5 1 "2 days ago"] Sample.world)
     = Return (clock Sample.world - 2 * hours24 + hours24)
  /\ ~ (clock Sample.world + tick Sample.world
        < clock Sample.world - 2 * hours24 + hours24).
Proof.
  repeat split; try (vm_compute; reflexivity).
  vm_compute. intros H. discriminate.
Qed.

(** C7 (amended).  Let [parsed] be what the parser makes of the content of
    the message that resolved the wait, and [now] the instant at which
    the helper compares it, which is its second reading of the clock,
    taken after the parse and the optional deletion.
    - If [parsed] is before [now], the helper returns it plus exactly 24
      hours; the result lies after [now] exactly when [parsed] is less
      than 24 hours before [now].
    - If [parsed] is not before [now], it is returned unchanged.
    - If there is no [parsed], the helper raises the [InputError] saying
      that the time format is not valid. *)
Theorem time_input_rolls_forward (ctx : Context) (check : Message -> bool)
    (timeout : Z) (del : bool) (events : list Event) (w : World) (m : Message) :
  first_match check timeout events = Some m ->
  let parsed := dateparser_parse ctx (content m) (clock w) in
  let now := clock w + tick w in
  let result := fst (time_input ctx check timeout del events w) in
  (forall t : Z,
     parsed = Some t -> t < now ->
     result = Return (t + hours24)
     /\ (now < t + hours24 <-> now - hours24 < t))
  /\ (forall t : Z, parsed = Some t -> now <= t -> result = Return t)
  /\ (parsed = None -> result = Raise (InputError time_format_error)).
Proof.
  intros F parsed now result. subst result.
  rewrite (time_input_resolved ctx check timeout del events w m F).
  fold parsed. fold now. simpl. repeat split.
  - rewrite H. apply Z.ltb_lt in H0. now rewrite H0.
  - lia.
  - lia.
  - intros t P L. rewrite P. apply Z.ltb_ge in L. now rewrite L.
  - intros P. now rewrite P.
Qed.

(** The four cases at work; the answer "now" parses to the parser's base,
    which is already past when the helper compares, so it comes back a
    day later. *)
Lemma time_input_rolls_forward_witness :
  fst (time_input Sample.ctx (default_check Sample.ctx) 120 true
         [Sample.at_ 5 1 "1 hour ago"] Sample.world)
  = Return (clock Sample.world - 3600 * 1000000 + hours24)
  /\ fst (time_input Sample.ctx (default_check Sample.ctx) 120 true
            [Sample.at_ 5 1 "in 1 hour"] Sample.world)
     = Return (clock Sample.world + 3600 * 1000000)
  /\ fst (time_input Sample.ctx (default_check Sample.ctx) 120 true
            [Sample.at_ 5 1 "soon"] Sample.world)
     = Raise (InputError time_format_error)
  /\ fst (time_input Sample.ctx (default_check Sample.ctx) 120 true
            [Sample.at_ 5 1 "now"] Sample.world)
     = Return (clock Sample.world + hours24).
Proof.
  split; [|split; [|split]].
  - apply (proj1 (time_input_rolls_forward Sample.ctx (default_check Sample.ctx)
                    120 true [Sample.at_ 5 1 "1 hour ago"] Sample.world
                    (Sample.says 1 "1 hour ago") eq_refl)
             (clock Sample.world - 3600 * 1000000)).
    + reflexivity.
    + reflexivity.
  - apply (proj1 (proj2 (time_input_rolls_forward Sample.ctx
                           (default_check Sample.ctx) 120 true
                           [Sample.at_ 5 1 "in 1 hour"] Sample.world
                           (Sample.says 1 "in 1 hour") eq_refl))).
    + reflexivity.
    + vm_compute. discriminate.
  - apply (proj2 (proj2 (time_input_rolls_forward Sample.ctx
                           (default_check Sample.ctx) 120 true
                           [Sample.at_ 5 1 "soon"] Sample.world
                           (Sample.says 1 "soon") eq_refl))).
    reflexivity.
  - apply (proj1 (time_input_rolls_forward Sample.ctx (default_check Sample.ctx)
                    120 true [Sample.at_ 5 1 "now"] Sample.world
                    (Sample.says 1 "now") eq_refl)
             (clock Sample.world)).
    + reflexivity.
    + reflexivity.
Defined.

(* ===================================================================== *)
(** ** image_input *)
(* ===================================================================== *)

(** The world once [url] has been requested through the bot's session. *)
Definition logged (url : string) (w : World) : World :=
  {| transcript := transcript w;
     undeletable := undeletable w;
     http_log := url :: http_log w;
     clock := clock w;
     tick := tick w |}.

(** C9.  When the content of the message that resolved the wait, stripped
    and lower-cased, is "none", [image_input] returns [None]: it raises
    nothing, and requests nothing over HTTP (the log is as before).  The
    result is fixed by the content alone, so no attachment is looked
    at.  The only effect is the optional deletion of the message. *)
Theorem image_input_none (ctx : Context) (check : Message -> bool)
    (timeout : Z) (del : bool) (events : list Event) (w : World) (m : Message) :
  first_match check timeout events = Some m ->
  Py.lower (Py.strip (content m)) = "none" ->
  image_input ctx check timeout del events w
  = (Return None, snd (delete_if del m w))
  /\ http_log (snd (image_input ctx check timeout del events w)) = http_log w.
Proof.
  intros F E.
  assert (R : image_input ctx check timeout del events w
              = (Return None, snd (delete_if del m w))).
  { unfold image_input. run_wait F w.
    destruct (delete_if_frame del m w) as (w' & -> & _).
    rewrite E. reflexivity. }
  split; [exact R|]. rewrite R. simpl.
  destruct (delete_if_frame del m w) as (w' & -> & L & _). exact L.
Qed.

Lemma image_input_none_witness :
  image_input Sample.ctx (default_check Sample.ctx) 120 true
    [Sample.at_ 5 1 "  NoNe "] Sample.world
  = (Return None, snd (delete_if true (Sample.says 1 "  NoNe ") Sample.world))
  /\ http_log (snd (image_input Sample.ctx (default_check Sample.ctx) 120 true
                      [Sample.at_ 5 1 "  NoNe "] Sample.world))
     = http_log Sample.world.
Proof.
  apply (image_input_none Sample.ctx (default_check Sample.ctx) 120 true
           [Sample.at_ 5 1 "  NoNe "] Sample.world (Sample.says 1 "  NoNe ")).
  - reflexivity.
  - reflexivity.
Defined.

(** C6 (counterexample).  The content is a well-formed URL of a host that
    cannot be reached: the session raises a connection error, which is not
    an [InvalidURL], and [image_input] lets it through to the caller. *)
Lemma image_input_transport_counterexample :
  session_network Sample.ctx "https://unreachable.example/logo.png"
    = inl ClientConnectionError
  /\ image_input Sample.ctx (default_check Sample.ctx) 120 false
       [Sample.at_ 5 1 "https://unreachable.example/logo.png"] Sample.world
     = (Raise ClientConnectionError,
        logged "https://unreachable.example/logo.png" Sample.world)
  /\ fst (image_input Sample.ctx (default_check Sample.ctx) 120 false
            [Sample.at_ 5 1 "https://unreachable.example/logo.png"] Sample.world)
     <> Return None.
Proof.
  repeat split; try (vm_compute; reflexivity).
  vm_compute. discriminate.
Qed.

(** C6 (amended).  When [image_input] falls through to the URL check (the
    content is not "none" and the first attachment is no accepted image),
    the content is requested once and:
    - an [InvalidURL] raised by the request is swallowed and the result is
      [None];
    - any other error raised by the request goes through to the caller;
    - a reply without a [content-type] header raises [KeyError];
    - otherwise the result is the content when the header is one of the
      four image types, and [None] when it is not.
    So the call ends with a value, with the time-out [InputError], or
    with an error let through from the request; it never reports an
    [InputError] for a bad image. *)
Theorem image_input_url_check (ctx : Context) (check : Message -> bool)
    (timeout : Z) (del : bool) (events : list Event) (w : World) (m : Message) :
  first_match check timeout events = Some m ->
  Py.lower (Py.strip (content m)) <> "none" ->
  first_attachment_is_image m = None ->
  image_input ctx check timeout del events w
  = (match session_network ctx (content m) with
     | inl e => if is_InvalidURL e then Return None else Raise e
     | inr res =>
         match header_content_type res with
         | None => Raise (KeyError "content-type")
         | Some t =>
             Return (if Py.mem t _image_formats then Some (content m) else None)
         end
     end, logged (content m) (snd (delete_if del m w))).
Proof.
  intros F E A. unfold image_input. run_wait F w.
  destruct (delete_if_frame del m w) as (w' & -> & _). simpl snd.
  apply String.eqb_neq in E. rewrite E, A.
  unfold suppress, try_except, try_except_else, bind, http_get, logged.
  destruct (session_network ctx (content m)) as [e|res].
  - destruct e; reflexivity.
  - unfold headers_content_type.
    destruct (header_content_type res) as [t|]; [|reflexivity].
    unfold ret. destruct (Py.mem t _image_formats); reflexivity.
Qed.

Lemma image_input_url_check_witness :
  image_input Sample.ctx (default_check Sample.ctx) 120 false
    [Sample.at_ 5 1 "not a link"] Sample.world
  = (Return None, logged "not a link" Sample.world).
Proof.
  apply (image_input_url_check Sample.ctx (default_check Sample.ctx) 120 false
           [Sample.at_ 5 1 "not a link"] Sample.world (Sample.says 1 "not a link")).
  - reflexivity.
  - intros H. apply String.eqb_eq in H. vm_compute in H. discriminate.
  - reflexivity.
Defined.

(** The time-out is the only [InputError] of [image_input]. *)
Lemma image_input_timed_out (ctx : Context) (check : Message -> bool)
    (timeout : Z) (del : bool) (events : list Event) (w : World) :
  first_match check timeout events = None ->
  image_input ctx check timeout del events w
  = (Raise (InputError image_timeout_error), w).
Proof.
  intros F. unfold image_input. run_wait F w. reflexivity.
Qed.

(* ===================================================================== *)
(** ** Deletion of the triggering message *)
(* ===================================================================== *)

(** What [role_input] does once the content resolved to a role. *)
Lemma role_input_resolved (ctx : Context) (check : option (Message -> bool))
    (timeout : Z) (hierarchy check_perms del : bool) (events : list Event)
    (w : World) (m : Message) (role : Role) :
  first_match (check_or_default ctx check) timeout events = Some m ->
  role_converter ctx (content m) = Some role ->
  (exists reason,
     role_input ctx check timeout hierarchy check_perms del events w
     = (Raise (InputError reason), w))
  \/ role_input ctx check timeout hierarchy check_perms del events w
     = (Return role, snd (delete_if del m w)).
Proof.
  intros F C. unfold role_input. run_wait F w.
  unfold convert_role. rewrite C. cbn [ret]. unfold raise.
  destruct (managed role); [left; eauto|].
  destruct (hierarchy && role_gt _ role (top_role (ctx_me ctx)))%bool; [left; eauto|].
  destruct (hierarchy && negb _ && _)%bool; [left; eauto|].
  destruct (check_perms && _)%bool; [left; eauto|].
  right. destruct (delete_if_frame del m w) as (w' & -> & _). reflexivity.
Qed.

(** C10.  With [delete_after] on, [channel_input] and [role_input] delete
    the triggering message only on the path that returns: whenever the
    call raises (time-out, unresolvable content, missing channel
    capability, managed role, hierarchy violation, dangerous permissions)
    the world is exactly as before, and whenever it returns, the world is
    the one [safe_delete] leaves for the message that resolved the wait. *)
Theorem delete_only_after_validation (ctx : Context)
    (check : option (Message -> bool)) (timeout : Z)
    (hierarchy check_perms : bool) (events : list Event) (w : World) :
  match channel_input ctx check timeout true check_perms events w with
  | (Raise _, w') => w' = w
  | (Return _, w') =>
      exists m, first_match (check_or_default ctx check) timeout events = Some m
                /\ w' = snd (safe_delete m w)
  end
  /\ match role_input ctx check timeout hierarchy check_perms true events w with
     | (Raise _, w') => w' = w
     | (Return _, w') =>
         exists m, first_match (check_or_default ctx check) timeout events = Some m
                   /\ w' = snd (safe_delete m w)
     end.
Proof.
  destruct (first_match (check_or_default ctx check) timeout events) as [m|] eqn:F.
  - split.
    + destruct (text_channel_converter ctx (content m)) as [ch|] eqn:C.
      * rewrite (channel_input_resolved ctx check timeout true check_perms
                   events w m ch F C).
        destruct (negb (has_base _)); [reflexivity|].
        destruct (check_perms && _)%bool; [reflexivity|].
        exists m. rewrite delete_if_true. auto.
      * unfold channel_input. run_wait F w. unfold convert_text_channel.
        rewrite C. reflexivity.
    + destruct (role_converter ctx (content m)) as [role|] eqn:C.
      * destruct (role_input_resolved ctx check timeout hierarchy check_perms true
                    events w m role F C) as [[reason ->]| ->]; [reflexivity|].
        exists m. rewrite delete_if_true. auto.
      * unfold role_input. run_wait F w. unfold convert_role. rewrite C.
        reflexivity.
  - split.
    + unfold channel_input. run_wait F w. reflexivity.
    + unfold role_input. run_wait F w. reflexivity.
Qed.

(** The deletion is observable: an accepted channel takes the triggering
    message out of the transcript, a rejected one leaves it there. *)
Example channel_input_deletion_runs :
  transcript (snd (channel_input Sample.ctx None 120 true false
                     [Sample.at_ 5 1 "<#50>"] Sample.world)) = [2; 3]%N
  /\ transcript (snd (channel_input Sample.ctx None 120 true true
                        [Sample.at_ 5 1 "<#50>"] Sample.world)) = [1; 2; 3]%N
  /\ transcript (snd (role_input Sample.ctx None 120 false true true
                        [Sample.at_ 5 1 "<@&20>"] Sample.world)) = [2; 3]%N
  /\ transcript (snd (role_input Sample.ctx None 120 true true true
                        [Sample.at_ 5 1 "<@&40>"] Sample.world)) = [1; 2; 3]%N.
Proof. repeat split. Qed.

(* ===================================================================== *)
(** ** Further properties of the input helpers *)
(* ===================================================================== *)

(** A value returned by [integer_input] is the integer of the message
    that resolved the wait. *)
Lemma integer_input_returns (ctx : Context) (check : option (Message -> bool))
    (timeout : Z) (limits : option Z * option Z) (del : bool)
    (events : list Event) (w : World) (v : Z) :
  fst (integer_input ctx check timeout limits del events w) = Return v ->
  exists m,
    first_match (new_check (check_or_default ctx check) limits) timeout events = Some m
    /\ new_check (check_or_default ctx check) limits m = true
    /\ Py.int (content m) = Some v.
Proof.
  intros R.
  destruct (first_match (new_check (check_or_default ctx check) limits) timeout events)
    as [m|] eqn:F.
  - destruct (integer_input_resolved ctx check timeout limits del events w m F)
      as (v' & E & I).
    rewrite I in R. simpl in R. injection R as <-.
    exists m. split; [reflexivity|]. split; [|exact E].
    exact (first_match_passes _ _ _ _ F).
  - rewrite (integer_input_timed_out ctx check timeout limits del events w F) in R.
    discriminate.
Qed.

Lemma new_check_true (check : Message -> bool) (limits : option Z * option Z)
    (m : Message) (v : Z) :
  new_check check limits m = true -> Py.int (content m) = Some v ->
  check m = true /\ too_long limits (content m) = false /\ limits_test limits v = true.
Proof.
  unfold new_check. intros N I. rewrite I in N.
  destruct (check m); [|discriminate].
  destruct (too_long limits (content m)); [discriminate|]. auto.
Qed.

(** Limits that are given and are not [0] are enforced on every returned
    value: a non-zero [low] is a lower bound, and a non-zero [high] given
    together with a non-zero [low] is an upper bound. *)
Theorem integer_input_nonzero_limits (ctx : Context)
    (check : option (Message -> bool)) (timeout : Z) (low high : option Z)
    (del : bool) (events : list Event) (w : World) (v : Z) :
  fst (integer_input ctx check timeout (low, high) del events w) = Return v ->
  (forall l, low = Some l -> l <> 0 -> l <= v)
  /\ (forall l h, low = Some l -> high = Some h -> l <> 0 -> h <> 0 -> v <= h).
Proof.
  intros R.
  destruct (integer_input_returns _ _ _ _ _ _ _ _ R) as (m & _ & N & I).
  destruct (new_check_true _ _ _ _ N I) as (_ & _ & T).
  rewrite limits_test_cases in T. split.
  - intros l -> L. apply Z.eqb_neq in L. rewrite L in T.
    destruct high as [h|]; [destruct (h =? 0)|];
      try (apply andb_true_iff in T; destruct T as [T _]); now apply Z.leb_le.
  - intros l h -> -> L H. apply Z.eqb_neq in L. apply Z.eqb_neq in H.
    rewrite L, H in T. apply andb_true_iff in T. destruct T as [_ T].
    now apply Z.leb_le.
Qed.

Lemma integer_input_nonzero_limits_witness :
  fst (integer_input Sample.ctx None 120 (Some 1, Some 15000) true
         [Sample.at_ 5 1 "15000"] Sample.world) = Return 15000
  /\ 1 <= 15000 /\ 15000 <= 15000.
Proof.
  assert (R : fst (integer_input Sample.ctx None 120 (Some 1, Some 15000) true
                     [Sample.at_ 5 1 "15000"] Sample.world) = Return 15000)
    by reflexivity.
  destruct (integer_input_nonzero_limits _ _ _ _ _ _ _ _ _ R) as [A B].
  split; [exact R|]. split.
  - apply (A 1); [reflexivity | discriminate].
  - apply (B 1 15000); [reflexivity | reflexivity | discriminate | discriminate].
Defined.

(** *** The length gate bounds the magnitude *)

Lemma digit_value_range (c : ascii) :
  Py.is_digit c = true -> 0 <= Py.digit_value c <= 9.
Proof.
  unfold Py.is_digit, Py.between, Py.digit_value. intros H.
  apply andb_true_iff in H. destruct H as [A B].
  apply Nat.leb_le in A. apply Nat.leb_le in B. lia.
Qed.

(** A digit string of length [n] read after the accumulator [acc] stays
    below [(acc + 1) * 10 ^ n]. *)
Lemma parse_digits_bound (s : string) (acc : Z) (b : bool) (v : Z) :
  0 <= acc -> Py.parse_digits acc b s = Some v ->
  0 <= v < (acc + 1) * 10 ^ Z.of_nat (Py.len s).
Proof.
  unfold Py.len. revert acc b.
  induction s as [|c r IH]; intros acc b A P.
  - simpl in P. destruct b; [|discriminate]. injection P as <-. simpl. lia.
  - cbn [Py.parse_digits] in P. cbn [String.length].
    rewrite Nat2Z.inj_succ, Z.pow_succ_r by lia.
    assert (Q : 0 < 10 ^ Z.of_nat (String.length r)) by (apply Z.pow_pos_nonneg; lia).
    destruct (Py.is_digit c) eqn:D.
    + pose proof (digit_value_range c D) as V.
      apply IH in P; [|lia]. nia.
    + destruct (Ascii.eqb c "_" && b)%bool; [|discriminate].
      destruct r as [|d r']; [discriminate|].
      destruct (Py.is_digit d); [|discriminate].
      apply IH in P; [|lia]. nia.
Qed.

Lemma int_lskip_length (s : string) :
  (Py.len (Py.int_lskip s) <= Py.len s)%nat.
Proof.
  unfold Py.len. induction s as [|c r IH]; simpl; [lia|].
  destruct (Py.int_space c); simpl; lia.
Qed.

Lemma int_rskip_length (s : string) :
  (Py.len (Py.int_rskip s) <= Py.len s)%nat.
Proof.
  unfold Py.len. induction s as [|c r IH]; simpl; [lia|].
  destruct (Py.int_rskip r); [destruct (Py.int_space c)|]; simpl in *; lia.
Qed.

(** [int] never yields a number with more digits than the string has
    characters. *)
Lemma int_magnitude (s : string) (v : Z) :
  Py.int s = Some v -> Z.abs v < 10 ^ Z.of_nat (Py.len s).
Proof.
  unfold Py.int. intros P.
  pose proof (int_lskip_length s) as L1.
  pose proof (int_rskip_length (Py.int_lskip s)) as L2.
  assert (M : forall t x, Py.int_literal t = Some x ->
                          (Py.len t <= Py.len s)%nat ->
                          0 <= x < 10 ^ Z.of_nat (Py.len s)).
  { intros t x Q L. unfold Py.int_literal in Q.
    destruct (Py.parse_digits 0 false t) as [y|] eqn:Q'; [|discriminate].
    destruct (Py.max_str_digits <? Py.count_digits t); [discriminate|].
    injection Q as <-. apply parse_digits_bound in Q'; [|lia].
    assert (10 ^ Z.of_nat (Py.len t) <= 10 ^ Z.of_nat (Py.len s))
      by (apply Z.pow_le_mono_r; lia).
    lia. }
  destruct (Py.int_rskip (Py.int_lskip s)) as [|c r] eqn:E; [discriminate|].
  assert (Lr : (Py.len r <= Py.len s)%nat) by (unfold Py.len in *; simpl in L2; lia).
  destruct (Ascii.eqb c "-").
  - destruct (Py.int_literal r) as [x|] eqn:Q; [|discriminate].
    simpl in P. injection P as <-. specialize (M r x Q Lr). lia.
  - destruct (Ascii.eqb c "+").
    + specialize (M r v P Lr). lia.
    + specialize (M (String c r) v P). unfold Py.len in *. lia.
Qed.

(** Whenever an upper limit is declared, whatever the lower one, the
    content that resolves the wait is no longer than the numeral of the
    limit, so the returned value has at most that many digits. *)
Theorem integer_input_magnitude (ctx : Context)
    (check : option (Message -> bool)) (timeout : Z) (low : option Z) (high : Z)
    (del : bool) (events : list Event) (w : World) (v : Z) :
  fst (integer_input ctx check timeout (low, Some high) del events w) = Return v ->
  Z.abs v < 10 ^ Z.of_nat (Py.len (Py.str high)).
Proof.
  intros R.
  destruct (integer_input_returns _ _ _ _ _ _ _ _ R) as (m & _ & N & I).
  destruct (new_check_true _ _ _ _ N I) as (_ & G & _).
  unfold too_long in G. simpl in G. apply Nat.ltb_ge in G.
  pose proof (int_magnitude _ _ I) as B.
  assert (10 ^ Z.of_nat (Py.len (content m)) <= 10 ^ Z.of_nat (Py.len (Py.str high)))
    by (apply Z.pow_le_mono_r; lia).
  lia.
Qed.

Lemma integer_input_magnitude_witness :
  fst (integer_input Sample.ctx None 120 (Some 0, Some 10) true
         [Sample.at_ 5 1 "99"] Sample.world) = Return 99
  /\ Z.abs 99 < 10 ^ Z.of_nat (Py.len (Py.str 10)).
Proof.
  assert (R : fst (integer_input Sample.ctx None 120 (Some 0, Some 10) true
                     [Sample.at_ 5 1 "99"] Sample.world) = Return 99)
    by reflexivity.
  split; [exact R|].
  exact (integer_input_magnitude _ _ _ _ _ _ _ _ _ R).
Defined.

(** *** string_input *)

(** [string_input] hands back, character for character, the content of
    the first message that passes the check, even an empty one; with no
    such message before the deadline it raises its time-out [InputError]
    and leaves the world alone.  Messages that fail the check are passed
    over. *)
Theorem string_input_verbatim (ctx : Context) (check : option (Message -> bool))
    (timeout : Z) (del : bool) (pre rest : list Event) (w : World) :
  Forall (fun e => check_or_default ctx check (snd e) = false) pre ->
  Text.string_input ctx check timeout del (pre ++ rest) w
  = match first_match (check_or_default ctx check) timeout rest with
    | Some m => (Return (content m), snd (delete_if del m w))
    | None => (Raise (InputError Text.string_timeout_error), w)
    end.
Proof.
  intros H. unfold Text.string_input.
  rewrite (wait_for_skip _ _ _ _ H).
  destruct (first_match (check_or_default ctx check) timeout rest) as [m|] eqn:F;
    run_wait F w; [|reflexivity].
  destruct (delete_if_frame del m w) as (w' & -> & _). reflexivity.
Qed.

Lemma string_input_verbatim_witness :
  Text.string_input Sample.ctx None 120 false
    ([(1, {| message_id := 7; channel := 51; author := 9;
             content := "not for you"; attachments := [] |})]
     ++ [Sample.at_ 5 1 EmptyString]) Sample.world
  = (Return EmptyString, Sample.world).
Proof.
  apply (string_input_verbatim Sample.ctx None 120 false
           [(1, {| message_id := 7; channel := 51; author := 9;
                   content := "not for you"; attachments := [] |})]
           [Sample.at_ 5 1 EmptyString] Sample.world).
  repeat constructor.
Defined.

(** *** role_input *)

(** The checks [role_input] runs on a resolved role, under its flags. *)
Definition role_acceptable (ctx : Context) (hierarchy check_perms : bool)
    (role : Role) : bool :=
  (negb (managed role)
   && (negb hierarchy
       || (negb (role_gt (guild_id (ctx_guild ctx)) role (top_role (ctx_me ctx)))
           && ((member_id (ctx_author ctx) =? owner_id (ctx_guild ctx))%N
               || negb (role_gt (guild_id (ctx_guild ctx)) role
                          (top_role (ctx_author ctx))))))
   && (negb check_perms || negb (dangerous (permissions role))))%bool.

Lemma role_input_decided (ctx : Context) (check : option (Message -> bool))
    (timeout : Z) (hierarchy check_perms del : bool) (events : list Event)
    (w : World) (m : Message) (role : Role) :
  first_match (check_or_default ctx check) timeout events = Some m ->
  role_converter ctx (content m) = Some role ->
  if role_acceptable ctx hierarchy check_perms role
  then role_input ctx check timeout hierarchy check_perms del events w
       = (Return role, snd (delete_if del m w))
  else exists reason,
         role_input ctx check timeout hierarchy check_perms del events w
         = (Raise (InputError reason), w).
Proof.
  intros F C. unfold role_acceptable, role_input. run_wait F w.
  unfold convert_role. rewrite C. cbn [ret]. unfold raise.
  destruct (managed role); simpl; [eauto|].
  destruct hierarchy, check_perms; simpl;
    repeat match goal with
           | |- context [role_gt ?g ?a ?b] => destruct (role_gt g a b); simpl
           | |- context [(?a =? ?b)%N] => destruct (a =? b)%N; simpl
           | |- context [dangerous ?p] => destruct (dangerous p); simpl
           end; eauto;
    destruct (delete_if_frame del m w) as (w' & -> & _); reflexivity.
Qed.

(** [role_input] returns exactly the roles that pass its enabled checks:
    a returned role is the one the resolving message names, it is not
    managed, with [hierarchy] it ranks neither above the bot's top role
    nor (unless the requester owns the guild) above the requester's, and
    with [check_perms] it carries none of the dangerous permissions. *)
Theorem role_input_returns_acceptable (ctx : Context)
    (check : option (Message -> bool)) (timeout : Z)
    (hierarchy check_perms del : bool) (events : list Event) (w : World)
    (m : Message) (role : Role) :
  first_match (check_or_default ctx check) timeout events = Some m ->
  role_converter ctx (content m) = Some role ->
  (fst (role_input ctx check timeout hierarchy check_perms del events w) = Return role
   <-> role_acceptable ctx hierarchy check_perms role = true)
  /\ (forall r, fst (role_input ctx check timeout hierarchy check_perms del events w)
                = Return r -> r = role).
Proof.
  intros F C.
  pose proof (role_input_decided ctx check timeout hierarchy check_perms del
                events w m role F C) as D.
  destruct (role_acceptable ctx hierarchy check_perms role).
  - rewrite D. simpl. split; [tauto|]. now intros r [= <-].
  - destruct D as [reason ->]. simpl. split; [split; discriminate|]. discriminate.
Qed.

Lemma role_input_returns_acceptable_witness :
  fst (role_input Sample.ctx None 120 false true true
         [Sample.at_ 5 1 "<@&20>"] Sample.world) = Return Sample.staff_role
  /\ role_acceptable Sample.ctx false true Sample.staff_role = true.
Proof.
  pose proof (role_input_returns_acceptable Sample.ctx None 120 false true true
                [Sample.at_ 5 1 "<@&20>"] Sample.world
                (Sample.says 1 "<@&20>") Sample.staff_role eq_refl eq_refl)
    as [[_ B] _].
  split; [apply B|]; reflexivity.
Defined.

(** The order of the rejections: a managed role is turned down as such
    whatever the flags and its rank; with [hierarchy], an unmanaged role
    above the bot's top role is turned down for that even when the
    requester owns the guild. *)
Theorem role_input_rejection_order (ctx : Context)
    (check : option (Message -> bool)) (timeout : Z)
    (hierarchy check_perms del : bool) (events : list Event) (w : World)
    (m : Message) (role : Role) :
  first_match (check_or_default ctx check) timeout events = Some m ->
  role_converter ctx (content m) = Some role ->
  (managed role = true ->
   role_input ctx check timeout hierarchy check_perms del events w
   = (Raise (InputError role_managed_error), w))
  /\ (managed role = false ->
      role_gt (guild_id (ctx_guild ctx)) role (top_role (ctx_me ctx)) = true ->
      role_input ctx check timeout true check_perms del events w
      = (Raise (InputError (role_above_me_error ctx role)), w)).
Proof.
  intros F C. split.
  - intros M. unfold role_input. run_wait F w.
    unfold convert_role. rewrite C. cbn [ret]. now rewrite M.
  - intros M A. unfold role_input. run_wait F w.
    unfold convert_role. rewrite C. cbn [ret]. now rewrite M, A.
Qed.

Lemma role_input_rejection_order_witness :
  role_input Sample.ctx None 120 true false true
    [Sample.at_ 5 1 "<@&30>"] Sample.world
  = (Raise (InputError (role_above_me_error Sample.ctx Sample.high_admin_role)),
     Sample.world).
Proof.
  apply (proj2 (role_input_rejection_order Sample.ctx None 120 true false true
                  [Sample.at_ 5 1 "<@&30>"] Sample.world
                  (Sample.says 1 "<@&30>") Sample.high_admin_role
                  eq_refl eq_refl)); reflexivity.
Defined.

(** *** channel_input *)

(** [channel_input] returns exactly the channels in which the bot has the
    three base permissions and, in strict mode, the five strict ones; the
    returned channel is the one the resolving message names. *)
Theorem channel_input_returns_permitted (ctx : Context)
    (check : option (Message -> bool)) (timeout : Z) (del strict : bool)
    (events : list Event) (w : World) (m : Message) (ch : Channel) :
  first_match (check_or_default ctx check) timeout events = Some m ->
  text_channel_converter ctx (content m) = Some ch ->
  let p := permissions_for ch (member_id (ctx_me ctx)) in
  (fst (channel_input ctx check timeout del strict events w) = Return ch
   <-> forallb (Caps.has p) Caps.base_caps = true
       /\ (strict = true -> forallb (Caps.has p) Caps.strict_caps = true))
  /\ (forall c, fst (channel_input ctx check timeout del strict events w)
                = Return c -> c = ch).
Proof.
  intros F C p.
  rewrite (channel_input_resolved ctx check timeout del strict events w m ch F C).
  fold p. rewrite has_base_forallb, has_strict_forallb.
  generalize (forallb (Caps.has p) Caps.base_caps)
             (forallb (Caps.has p) Caps.strict_caps).
  intros [|] [|]; destruct strict; cbn [negb andb fst];
    (split;
     [split;
      [intros H;
       first [discriminate
             | split; [reflexivity | intros; first [reflexivity | discriminate]]]
      |intros [H1 H2]; try discriminate;
       try (specialize (H2 eq_refl); discriminate); reflexivity]
     |intros c H; try discriminate; now injection H]).
Qed.

Lemma channel_input_returns_permitted_witness :
  (fst (channel_input Sample.ctx None 120 true false
          [Sample.at_ 5 1 "<#50>"] Sample.world) = Return Sample.general
   <-> forallb (Caps.has Sample.base_perms) Caps.base_caps = true
       /\ (false = true -> forallb (Caps.has Sample.base_perms) Caps.strict_caps = true)).
Proof.
  exact (proj1 (channel_input_returns_permitted Sample.ctx None 120 true false
                  [Sample.at_ 5 1 "<#50>"] Sample.world
                  (Sample.says 1 "<#50>") Sample.general eq_refl eq_refl)).
Defined.

(** *** member_input *)

(** [member_input] has three outcomes: the member the resolving message
    names, after the optional deletion of that message; the converter's
    [MemberNotFound] for its content, with nothing deleted; or the
    time-out [InputError] when no message passes the check. *)
Theorem member_input_outcomes (ctx : Context) (check : Message -> bool)
    (timeout : Z) (del : bool) (events : list Event) (w : World) :
  member_input ctx check timeout del events w
  = match first_match check timeout events with
    | Some m =>
        match member_converter ctx (content m) with
        | Some member => (Return member, snd (delete_if del m w))
        | None => (Raise (MemberNotFound (content m)), w)
        end
    | None => (Raise (InputError member_timeout_error), w)
    end.
Proof.
  unfold member_input.
  destruct (first_match check timeout events) as [m|] eqn:F; run_wait F w;
    [|reflexivity].
  unfold convert_member.
  destruct (member_converter ctx (content m)) as [member|]; [|reflexivity].
  cbn [ret]. destruct (delete_if_frame del m w) as (w' & -> & _). reflexivity.
Qed.

(** *** time_input deletes before it validates *)

(** Unlike [channel_input] and [role_input], [time_input] with
    [delete_after] deletes the triggering message before it looks at the
    parse: the message is gone even when the call ends with the
    invalid-format [InputError].  Apart from the two readings of the
    clock, the world is the one [safe_delete] leaves. *)
Theorem time_input_deletes_invalid (ctx : Context) (check : Message -> bool)
    (timeout : Z) (events : list Event) (w : World) (m : Message) :
  first_match check timeout events = Some m ->
  dateparser_parse ctx (content m) (clock w) = None ->
  time_input ctx check timeout true events w
  = (Raise (InputError time_format_error),
     ticked (snd (safe_delete m (ticked w))))
  /\ transcript (ticked (snd (safe_delete m (ticked w))))
     = transcript (snd (safe_delete m w))
  /\ undeletable (ticked (snd (safe_delete m (ticked w))))
     = undeletable (snd (safe_delete m w))
  /\ http_log (ticked (snd (safe_delete m (ticked w))))
     = http_log (snd (safe_delete m w)).
Proof.
  intros F P. rewrite (time_input_resolved ctx check timeout true events w m F).
  rewrite P, delete_if_true. split; [reflexivity|].
  unfold safe_delete, try_except_else, message_delete. simpl.
  destruct (negb _); [repeat split|].
  destruct (mem_id _ (undeletable w)); repeat split.
Qed.

Lemma time_input_deletes_invalid_witness :
  time_input Sample.ctx (default_check Sample.ctx) 120 true
    [Sample.at_ 5 1 "soon"] Sample.world
  = (Raise (InputError time_format_error),
     ticked (snd (safe_delete (Sample.says 1 "soon") (ticked Sample.world))))
  /\ transcript (ticked (snd (safe_delete (Sample.says 1 "soon")
                                (ticked Sample.world)))) = [2; 3]%N.
Proof.
  split; [|reflexivity].
  apply (time_input_deletes_invalid Sample.ctx (default_check Sample.ctx) 120
           [Sample.at_ 5 1 "soon"] Sample.world (Sample.says 1 "soon"));
    reflexivity.
Defined.

(** *** image_input and attachments *)

(** When the content is not "none" and the first attachment declares one
    of the four image types, [image_input] returns that attachment's proxy
    URL and requests nothing over HTTP, whatever the content is.  Only the
    first attachment counts: [first_attachment_is_image] ignores the
    others. *)
Theorem image_input_attachment (ctx : Context) (check : Message -> bool)
    (timeout : Z) (del : bool) (events : list Event) (w : World)
    (m : Message) (a : Attachment) (others : list Attachment) (t : string) :
  first_match check timeout events = Some m ->
  Py.lower (Py.strip (content m)) <> "none" ->
  attachments m = a :: others ->
  content_type a = Some t ->
  Py.mem t _image_formats = true ->
  image_input ctx check timeout del events w
  = (Return (Some (proxy_url a)), snd (delete_if del m w))
  /\ http_log (snd (image_input ctx check timeout del events w)) = http_log w.
Proof.
  intros F E A T M.
  assert (R : image_input ctx check timeout del events w
              = (Return (Some (proxy_url a)), snd (delete_if del m w))).
  { unfold image_input. run_wait F w.
    destruct (delete_if_frame del m w) as (w' & -> & _). simpl snd.
    apply String.eqb_neq in E. rewrite E.
    unfold first_attachment_is_image. now rewrite A, T, M. }
  split; [exact R|]. rewrite R. simpl.
  destruct (delete_if_frame del m w) as (w' & -> & L & _). exact L.
Qed.

(** A message of the requester with a picture attached. *)
Definition logo_attachment : Attachment :=
  {| content_type := Some "image/png";
     proxy_url := "https://media.example/logo.png" |}.

Definition logo_message : Message :=
  {| message_id := 1; channel := 50; author := 2;
     content := "here is the logo"; attachments := [logo_attachment] |}.

Lemma image_input_attachment_witness :
  image_input Sample.ctx (default_check Sample.ctx) 120 true
    [(5, logo_message)] Sample.world
  = (Return (Some "https://media.example/logo.png"),
     snd (delete_if true logo_message Sample.world)).
Proof.
  apply (image_input_attachment Sample.ctx (default_check Sample.ctx) 120 true
           [(5, logo_message)] Sample.world logo_message logo_attachment []
           "image/png"); try reflexivity.
  intros E. apply String.eqb_eq in E. vm_compute in E. discriminate.
Defined.

(* ===================================================================== *)
(** ** The button handlers *)
(* ===================================================================== *)

Ltac run_handler :=
  cbv beta delta [Buttons.hbind Buttons.simple Buttons.call Buttons.lift
                  Buttons.assign Buttons.get_record Buttons.hret];
  cbn beta iota zeta delta [Buttons.record Buttons.calls Buttons.world fst snd].

(** How [integer_input] ends when it raises. *)
Lemma integer_input_raises (ctx : Context) (check : option (Message -> bool))
    (timeout : Z) (limits : option Z * option Z) (del : bool)
    (events : list Event) (w w' : World) (e : exn) :
  integer_input ctx check timeout limits del events w = (Raise e, w') ->
  e = InputError integer_timeout_error /\ w' = w.
Proof.
  intros R.
  destruct (first_match (new_check (check_or_default ctx check) limits) timeout events)
    as [m|] eqn:F.
  - destruct (integer_input_resolved ctx check timeout limits del events w m F)
      as (v & _ & I).
    rewrite I in R. discriminate.
  - rewrite (integer_input_timed_out ctx check timeout limits del events w F) in R.
    injection R as <- <-. auto.
Qed.

(** [SetSlots]: the handler assigns [total_slots] only, and only a value
    between 1 and 15000; it then has deleted its prompt and refreshed the
    view.  If the requester does not answer with such a number in time,
    the time-out [InputError] comes out, the record and the world are as
    before, the prompt is still there and the view is not refreshed. *)
Theorem SetSlots_in_range (ctx : Context) (events : list Event)
    (v : Buttons.ViewState) :
  match Buttons.SetSlots_callback ctx events v with
  | (Return _, v') =>
      1 <= Buttons.total_slots (Buttons.record v') <= 15000
      /\ Buttons.record v'
         = Buttons.set_total_slots (Buttons.total_slots (Buttons.record v'))
             (Buttons.record v)
      /\ Buttons.calls v'
         = (Buttons.calls v
           ++ [Buttons.Defer; Buttons.Simple Buttons.SetSlots_prompt None;
               Buttons.SafeDelete Buttons.SetSlots_prompt; Buttons.RefreshView])%list
  | (Raise e, v') =>
      e = InputError integer_timeout_error
      /\ Buttons.record v' = Buttons.record v
      /\ Buttons.world v' = Buttons.world v
      /\ Buttons.calls v'
         = (Buttons.calls v
           ++ [Buttons.Defer; Buttons.Simple Buttons.SetSlots_prompt None])%list
  end.
Proof.
  unfold Buttons.SetSlots_callback. run_handler.
  destruct (integer_input ctx None 120 (Some 1, Some 15000) true events
              (Buttons.world v)) as [[slots|e] w'] eqn:E;
    cbn [Buttons.record Buttons.calls Buttons.world].
  - assert (R : fst (integer_input ctx None 120 (Some 1, Some 15000) true events
                       (Buttons.world v)) = Return slots) by now rewrite E.
    destruct (integer_input_nonzero_limits _ _ _ _ _ _ _ _ _ R) as [A B].
    split; [|split].
    + split; [apply (A 1) | apply (B 1 15000)]; (reflexivity || discriminate).
    + reflexivity.
    + now rewrite <- !app_assoc.
  - destruct (integer_input_raises _ _ _ _ _ _ _ _ _ E) as [-> ->].
    repeat split. now rewrite <- !app_assoc.
Qed.

(** [SetMentions]: the prompt says "Max 10", but what the handler
    guarantees for the stored [required_mentions] is a value between 0 and
    99: the lower limit [0] and the two-character length gate are
    enforced, the upper limit is not.  A failure leaves the record, the
    world and the prompt as they were. *)
Theorem SetMentions_in_range (ctx : Context) (events : list Event)
    (v : Buttons.ViewState) :
  match Buttons.SetMentions_callback ctx events v with
  | (Return _, v') =>
      0 <= Buttons.required_mentions (Buttons.record v') <= 99
      /\ Buttons.record v'
         = Buttons.set_required_mentions
             (Buttons.required_mentions (Buttons.record v')) (Buttons.record v)
      /\ Buttons.calls v'
         = (Buttons.calls v
           ++ [Buttons.Defer; Buttons.Simple Buttons.SetMentions_prompt None;
               Buttons.SafeDelete Buttons.SetMentions_prompt; Buttons.RefreshView])%list
  | (Raise e, v') =>
      e = InputError integer_timeout_error
      /\ Buttons.record v' = Buttons.record v
      /\ Buttons.world v' = Buttons.world v
      /\ Buttons.calls v'
         = (Buttons.calls v
           ++ [Buttons.Defer; Buttons.Simple Buttons.SetMentions_prompt None])%list
  end.
Proof.
  unfold Buttons.SetMentions_callback. run_handler.
  destruct (integer_input ctx None 120 (Some 0, Some 10) true events
              (Buttons.world v)) as [[n|e] w'] eqn:E;
    cbn [Buttons.record Buttons.calls Buttons.world].
  - assert (R : fst (integer_input ctx None 120 (Some 0, Some 10) true events
                       (Buttons.world v)) = Return n) by now rewrite E.
    pose proof (integer_input_magnitude _ _ _ _ _ _ _ _ _ R) as M.
    change (10 ^ Z.of_nat (Py.len (Py.str 10))) with 100 in M.
    destruct (integer_input_returns _ _ _ _ _ _ _ _ R) as (m & _ & N & I).
    destruct (new_check_true _ _ _ _ N I) as (_ & _ & T).
    rewrite limits_test_cases in T. simpl in T. apply Z.leb_le in T.
    cbn [Buttons.required_mentions Buttons.set_required_mentions].
    split; [lia|]. split; [reflexivity|]. now rewrite <- !app_assoc.
  - destruct (integer_input_raises _ _ _ _ _ _ _ _ _ E) as [-> ->].
    repeat split. now rewrite <- !app_assoc.
Qed.

(** Both ends of the range that [SetMentions] guarantees are stored when
    the requester types them. *)
Example SetMentions_stores_99 (r : Buttons.Tourney) :
  Buttons.required_mentions
    (Buttons.record
       (snd (Buttons.SetMentions_callback Sample.ctx [Sample.at_ 5 1 "99"]
               {| Buttons.record := r; Buttons.calls := [];
                  Buttons.world := Sample.world |}))) = 99.
Proof. reflexivity. Qed.

(** *** The handlers that ask for a role *)

(** How [role_input] ends, read from its result. *)
Lemma role_input_cases (ctx : Context) (check : option (Message -> bool))
    (timeout : Z) (hierarchy check_perms del : bool) (events : list Event)
    (w : World) :
  match role_input ctx check timeout hierarchy check_perms del events w with
  | (Return role, w') =>
      exists m,
        first_match (check_or_default ctx check) timeout events = Some m
        /\ role_converter ctx (content m) = Some role
        /\ role_acceptable ctx hierarchy check_perms role = true
        /\ w' = snd (delete_if del m w)
  | (Raise e, w') =>
      w' = w
      /\ ((exists reason, e = InputError reason)
          \/ (exists argument, e = RoleNotFound argument))
  end.
Proof.
  destruct (first_match (check_or_default ctx check) timeout events) as [m|] eqn:F.
  - destruct (role_converter ctx (content m)) as [role|] eqn:C.
    + pose proof (role_input_decided ctx check timeout hierarchy check_perms del
                    events w m role F C) as D.
      destruct (role_acceptable ctx hierarchy check_perms role) eqn:A.
      * rewrite D. exists m. auto.
      * destruct D as [reason ->]. eauto.
    + unfold role_input. run_wait F w. unfold convert_role. rewrite C.
      simpl. split; [reflexivity|]. right. eauto.
  - unfold role_input. run_wait F w. simpl. split; [reflexivity|]. left. eauto.
Qed.

(** A message passes the default check when it was sent in the context's
    channel or written by the requester. *)
Lemma default_check_routed (ctx : Context) (m : Message) :
  default_check ctx m = true ->
  channel m = channel_id (ctx_channel ctx)
  \/ author m = member_id (ctx_author ctx).
Proof.
  unfold default_check. intros H. apply orb_true_iff in H.
  destruct H as [H|H]; apply N.eqb_eq in H; auto.
Qed.

(** What a role handler with the prompt [prompt] that assigns
    [store role] leaves behind, on success and on failure.  [m] is the
    message that resolved the wait: the handlers pass no check, so it is
    the first one in the context's channel, whoever wrote it, or by the
    requester. *)
Definition role_handler_post (ctx : Context) (events : list Event)
    (prompt : string) (store : Role -> Buttons.Tourney -> Buttons.Tourney)
    (v : Buttons.ViewState) (out : outcome unit * Buttons.ViewState) : Prop :=
  match out with
  | (Return _, v') =>
      exists m role,
        first_match (default_check ctx) 120 events = Some m
        /\ (channel m = channel_id (ctx_channel ctx)
            \/ author m = member_id (ctx_author ctx))
        /\ role_converter ctx (content m) = Some role
        /\ role_acceptable ctx true true role = true
        /\ Buttons.record v' = store role (Buttons.record v)
        /\ Buttons.world v' = snd (safe_delete m (Buttons.world v))
        /\ Buttons.calls v'
           = (Buttons.calls v
              ++ [Buttons.Defer; Buttons.Simple prompt None;
                  Buttons.SafeDelete prompt; Buttons.RefreshView])%list
  | (Raise e, v') =>
      ((exists reason, e = InputError reason)
       \/ (exists argument, e = RoleNotFound argument))
      /\ Buttons.record v' = Buttons.record v
      /\ Buttons.world v' = Buttons.world v
      /\ Buttons.calls v'
         = (Buttons.calls v ++ [Buttons.Defer; Buttons.Simple prompt None])%list
  end.

Ltac role_handler ctx events v :=
  run_handler;
  let R := fresh "R" in
  pose proof (role_input_cases ctx None 120 true true true events (Buttons.world v)) as R;
  destruct (role_input ctx None 120 true true true events (Buttons.world v))
    as [[role|e] w'];
  cbn [Buttons.record Buttons.calls Buttons.world];
  [ destruct R as (m & F & C & A & ->); exists m, role;
    rewrite delete_if_true;
    split; [exact F|];
    split; [exact (default_check_routed ctx m (first_match_passes _ _ _ _ F))|];
    repeat split; auto; now rewrite <- !app_assoc
  | destruct R as [-> R]; repeat split; auto; now rewrite <- !app_assoc ].

(** [SetRole], [SetPingRole] and [OpenRole] assign their field only when
    the message that resolved the wait (the first one sent in the
    context's channel, by anyone, or written by the requester) names a
    role that passes every check of [role_input] (not managed, not above
    the bot's top role nor, for a requester who is not the owner, above
    the requester's, no dangerous permission); the answer and the prompt
    are then deleted and the view refreshed.
    [SetRole] stores the role's id; [SetPingRole] and [OpenRole] store
    the role object itself.  On any failure the record and the world are
    untouched, the prompt is left in place and the view is not
    refreshed. *)
Theorem role_handlers_store_accepted_role (ctx : Context) (events : list Event)
    (v : Buttons.ViewState) :
  role_handler_post ctx events Buttons.SetRole_prompt
    (fun role => Buttons.set_role_id (role_id role)) v
    (Buttons.SetRole_callback ctx events v)
  /\ role_handler_post ctx events Buttons.SetPingRole_prompt
       (fun role => Buttons.set_ping_role_id (Buttons.RoleObject role)) v
       (Buttons.SetPingRole_callback ctx events v)
  /\ role_handler_post ctx events Buttons.OpenRole_prompt
       (fun role => Buttons.set_open_role_id (Buttons.RoleObject role)) v
       (Buttons.OpenRole_callback ctx events v).
Proof.
  unfold role_handler_post, Buttons.SetRole_callback,
    Buttons.SetPingRole_callback, Buttons.OpenRole_callback.
  split; [|split]; role_handler ctx events v.
Qed.

(** *** The handlers that ask for a channel *)

(** How [channel_input] ends, read from its result. *)
Lemma channel_input_cases (ctx : Context) (check : option (Message -> bool))
    (timeout : Z) (del strict : bool) (events : list Event) (w : World) :
  match channel_input ctx check timeout del strict events w with
  | (Return ch, w') =>
      exists m,
        first_match (check_or_default ctx check) timeout events = Some m
        /\ text_channel_converter ctx (content m) = Some ch
        /\ has_base (permissions_for ch (member_id (ctx_me ctx))) = true
        /\ (strict = true ->
            has_strict (permissions_for ch (member_id (ctx_me ctx))) = true)
        /\ w' = snd (delete_if del m w)
  | (Raise e, w') =>
      w' = w
      /\ ((exists reason, e = InputError reason)
          \/ (exists argument, e = ChannelNotFound argument))
  end.
Proof.
  destruct (first_match (check_or_default ctx check) timeout events) as [m|] eqn:F.
  - destruct (text_channel_converter ctx (content m)) as [ch|] eqn:C.
    + rewrite (channel_input_resolved ctx check timeout del strict events w m ch F C).
      destruct (has_base _) eqn:B; simpl; [|eauto].
      destruct strict; simpl.
      * destruct (has_strict _) eqn:S; simpl; [|eauto].
        exists m. auto.
      * exists m. repeat split; auto. discriminate.
    + unfold channel_input. run_wait F w. unfold convert_text_channel. rewrite C.
      simpl. split; [reflexivity|]. right. eauto.
  - unfold channel_input. run_wait F w. simpl. split; [reflexivity|]. left. eauto.
Qed.

(** [RegChannel] and [ConfirmChannel] assign their field only to the id
    of a channel that the message which resolved the wait names (the
    first one sent in the context's channel, by anyone, or written by the
    requester) and in which the bot has all eight permissions (the
    helper's strict mode is on by default);
    [RegChannel] moreover refuses, with an error notice and without
    touching the record or refreshing the view, a channel in which another
    tourney already runs.  When [channel_input] fails, the record and the
    world are untouched, the prompt stays and the view is not refreshed. *)
Theorem channel_handlers_store_permitted_channel (ctx : Context)
    (running_in : N -> bool) (events : list Event) (v : Buttons.ViewState) :
  match Buttons.RegChannel_callback ctx running_in events v with
  | (Return _, v') =>
      exists m ch,
        first_match (default_check ctx) 120 events = Some m
        /\ (channel m = channel_id (ctx_channel ctx)
            \/ author m = member_id (ctx_author ctx))
        /\ text_channel_converter ctx (content m) = Some ch
        /\ forallb (Caps.has (permissions_for ch (member_id (ctx_me ctx))))
             Caps.all_caps = true
        /\ Buttons.world v' = snd (safe_delete m (Buttons.world v))
        /\ if running_in (channel_id ch)
           then Buttons.record v' = Buttons.record v
                /\ Buttons.calls v'
                   = (Buttons.calls v
                      ++ [Buttons.Defer;
                          Buttons.Simple Buttons.RegChannel_prompt None;
                          Buttons.SafeDelete Buttons.RegChannel_prompt;
                          Buttons.Error ("Another tourney is running in "
                                         ++ channel_mention ch ++ ".") 4])%list
           else Buttons.record v'
                = Buttons.set_registration_channel_id (channel_id ch)
                    (Buttons.record v)
                /\ Buttons.calls v'
                   = (Buttons.calls v
                      ++ [Buttons.Defer;
                          Buttons.Simple Buttons.RegChannel_prompt None;
                          Buttons.SafeDelete Buttons.RegChannel_prompt;
                          Buttons.RefreshView])%list
  | (Raise e, v') =>
      ((exists reason, e = InputError reason)
       \/ (exists argument, e = ChannelNotFound argument))
      /\ Buttons.record v' = Buttons.record v
      /\ Buttons.world v' = Buttons.world v
      /\ Buttons.calls v'
         = (Buttons.calls v
            ++ [Buttons.Defer; Buttons.Simple Buttons.RegChannel_prompt None])%list
  end
  /\ match Buttons.ConfirmChannel_callback ctx events v with
     | (Return _, v') =>
         exists m ch,
           first_match (default_check ctx) 120 events = Some m
           /\ (channel m = channel_id (ctx_channel ctx)
               \/ author m = member_id (ctx_author ctx))
           /\ text_channel_converter ctx (content m) = Some ch
           /\ forallb (Caps.has (permissions_for ch (member_id (ctx_me ctx))))
                Caps.all_caps = true
           /\ Buttons.world v' = snd (safe_delete m (Buttons.world v))
           /\ Buttons.record v'
              = Buttons.set_confirm_channel_id (channel_id ch) (Buttons.record v)
           /\ Buttons.calls v'
              = (Buttons.calls v
                 ++ [Buttons.Defer;
                     Buttons.Simple Buttons.ConfirmChannel_prompt None;
                     Buttons.SafeDelete Buttons.ConfirmChannel_prompt;
                     Buttons.RefreshView])%list
     | (Raise e, v') =>
         ((exists reason, e = InputError reason)
          \/ (exists argument, e = ChannelNotFound argument))
         /\ Buttons.record v' = Buttons.record v
         /\ Buttons.world v' = Buttons.world v
         /\ Buttons.calls v'
            = (Buttons.calls v
               ++ [Buttons.Defer;
                   Buttons.Simple Buttons.ConfirmChannel_prompt None])%list
     end.
Proof.
  assert (P : forall ch, has_base (permissions_for ch (member_id (ctx_me ctx))) = true ->
                         has_strict (permissions_for ch (member_id (ctx_me ctx))) = true ->
                         forallb (Caps.has (permissions_for ch (member_id (ctx_me ctx))))
                           Caps.all_caps = true).
  { intros ch B S. unfold Caps.all_caps.
    now rewrite forallb_app, <- has_base_forallb, <- has_strict_forallb, B, S. }
  pose proof (channel_input_cases ctx None 120 true true events (Buttons.world v)) as R.
  unfold Buttons.RegChannel_callback, Buttons.ConfirmChannel_callback.
  run_handler.
  destruct (channel_input ctx None 120 true true events (Buttons.world v))
    as [[ch|e] w']; cbn [Buttons.record Buttons.calls Buttons.world].
  - destruct R as (m & F & C & B & S & ->). rewrite delete_if_true.
    pose proof (default_check_routed ctx m (first_match_passes _ _ _ _ F)) as Q.
    split.
    + destruct (running_in (channel_id ch)) eqn:T;
        cbn [Buttons.record Buttons.calls Buttons.world];
        exists m, ch; rewrite T;
        (split; [exact F|]); (split; [exact Q|]);
        repeat split; auto; now rewrite <- !app_assoc.
    + exists m, ch. split; [exact F|]. split; [exact Q|].
      repeat split; auto. now rewrite <- !app_assoc.
  - destruct R as [-> R]. repeat split; auto; now rewrite <- !app_assoc.
Qed.

(** *** The toggles *)

(** The notice of [DuplicateTeamName] is worded from the new value of
    [no_duplicate_name]: it announces that duplicate names are "allowed"
    exactly when the flag has just been switched on, and "not allowed"
    when it has just been switched off. *)
Theorem DuplicateTeamName_notice (v : Buttons.ViewState) :
  let v' := snd (Buttons.DuplicateTeamName_callback v) in
  Buttons.no_duplicate_name (Buttons.record v')
  = negb (Buttons.no_duplicate_name (Buttons.record v))
  /\ Buttons.calls v'
     = (Buttons.calls v
        ++ [Buttons.Defer;
            Buttons.Success
              (if Buttons.no_duplicate_name (Buttons.record v')
               then "Duplicate team names are now **allowed**."
               else "Duplicate team names are now **not allowed**.") 3;
            Buttons.RefreshView])%list.
Proof.
  destruct v as [r c w]. simpl. split; [reflexivity|].
  rewrite <- !app_assoc. simpl.
  destruct (Buttons.no_duplicate_name r); reflexivity.
Qed.

(** *** SuccessMessage *)

(** Once the requester has answered, [SuccessMessage] looks at the
    answer cut by [truncate_string] to 500, lower-cased and stripped:
    - "none" clears the success message, with the notice "Removed";
    - "cancel" changes nothing in the record and does not refresh the
      view (the answer and the prompt are deleted all the same);
    - anything else becomes the success message, as cut but otherwise as
      typed, with the notice "Updated".
    No other field of the record is assigned. *)
Theorem SuccessMessage_cases (truncate_string : string -> Z -> string)
    (ctx : Context) (events : list Event) (v : Buttons.ViewState) (m : Message) :
  first_match (default_check ctx) 120 events = Some m ->
  let msg := truncate_string (content m) 500 in
  let key := Py.strip (Py.lower msg) in
  let prompt := Buttons.SuccessMessage_prompt (Buttons.record v) in
  let asked := [Buttons.Defer;
                Buttons.Simple prompt (Some Buttons.SuccessMessage_image);
                Buttons.SafeDelete prompt] in
  let out := Buttons.SuccessMessage_callback truncate_string ctx events v in
  fst out = Return tt
  /\ Buttons.world (snd out) = snd (safe_delete m (Buttons.world v))
  /\ (key = "none" ->
      Buttons.record (snd out) = Buttons.set_success_message None (Buttons.record v)
      /\ Buttons.calls (snd out)
         = (Buttons.calls v ++ asked
            ++ [Buttons.Success "Removed Success Message." 3;
                Buttons.RefreshView])%list)
  /\ (key = "cancel" ->
      Buttons.record (snd out) = Buttons.record v
      /\ Buttons.calls (snd out) = (Buttons.calls v ++ asked)%list)
  /\ (key <> "none" -> key <> "cancel" ->
      Buttons.record (snd out)
      = Buttons.set_success_message (Some msg) (Buttons.record v)
      /\ Buttons.calls (snd out)
         = (Buttons.calls v ++ asked
            ++ [Buttons.Success "Success Message Updated." 3;
                Buttons.RefreshView])%list).
Proof.
  intros F msg key prompt asked out. subst out asked prompt.
  unfold Buttons.SuccessMessage_callback. run_handler.
  pose proof (string_input_verbatim ctx None 120 true [] events (Buttons.world v)
                (Forall_nil _)) as S.
  simpl app in S. cbn [check_or_default] in S. rewrite F, delete_if_true in S.
  rewrite S. cbn [Buttons.record Buttons.calls Buttons.world].
  fold msg. fold key.
  destruct (String.eqb key "none") eqn:K1.
  - apply String.eqb_eq in K1.
    cbn [Buttons.record Buttons.calls Buttons.world fst snd].
    repeat split; try (now rewrite <- !app_assoc);
      intros; try congruence; rewrite K1 in *; discriminate.
  - apply String.eqb_neq in K1.
    destruct (String.eqb key "cancel") eqn:K2.
    + apply String.eqb_eq in K2.
      cbn [Buttons.record Buttons.calls Buttons.world fst snd].
      repeat split; try (now rewrite <- !app_assoc); intros; congruence.
    + apply String.eqb_neq in K2.
      cbn [Buttons.record Buttons.calls Buttons.world fst snd].
      repeat split; try (now rewrite <- !app_assoc); intros; congruence.
Qed.

(** A record and a view state to run the handlers on. *)
Definition sample_record : Buttons.Tourney :=
  {| Buttons.name := "Weekly Cup";
     Buttons.registration_channel_id := 50;
     Buttons.confirm_channel_id := 51;
     Buttons.role_id := 20;
     Buttons.required_mentions := 4;
     Buttons.ping_role_id := Buttons.RoleId 20;
     Buttons.total_slots := 64;
     Buttons.open_role_id := Buttons.RoleId 20;
     Buttons.multiregister := false;
     Buttons.teamname_compulsion := true;
     Buttons.no_duplicate_name := false;
     Buttons.autodelete_rejected := false;
     Buttons.success_message := Some "See you on Saturday." |}.

Definition sample_view : Buttons.ViewState :=
  {| Buttons.record := sample_record; Buttons.calls := [];
     Buttons.world := Sample.world |}.

Lemma SuccessMessage_cases_witness :
  Buttons.record
    (snd (Buttons.SuccessMessage_callback (fun s _ => s) Sample.ctx
            [Sample.at_ 5 1 "  CANCEL "] sample_view))
  = sample_record
  /\ Buttons.record
       (snd (Buttons.SuccessMessage_callback (fun s _ => s) Sample.ctx
               [Sample.at_ 5 1 "None"] sample_view))
     = Buttons.set_success_message None sample_record
  /\ Buttons.record
       (snd (Buttons.SuccessMessage_callback (fun s _ => s) Sample.ctx
               [Sample.at_ 5 1 "Well played!"] sample_view))
     = Buttons.set_success_message (Some "Well played!") sample_record.
Proof.
  split; [|split].
  - apply (SuccessMessage_cases (fun s _ => s) Sample.ctx
             [Sample.at_ 5 1 "  CANCEL "] sample_view
             (Sample.says 1 "  CANCEL ") eq_refl).
    reflexivity.
  - apply (SuccessMessage_cases (fun s _ => s) Sample.ctx
             [Sample.at_ 5 1 "None"] sample_view
             (Sample.says 1 "None") eq_refl).
    reflexivity.
  - apply (SuccessMessage_cases (fun s _ => s) Sample.ctx
             [Sample.at_ 5 1 "Well played!"] sample_view
             (Sample.says 1 "Well played!") eq_refl).
    + intros E. apply String.eqb_eq in E. vm_compute in E. discriminate.
    + intros E. apply String.eqb_eq in E. vm_compute in E. discriminate.
Defined.

(* ===================================================================== *)
(** ** The default routing *)
(* ===================================================================== *)

(** With no [check] given, a helper is answered by the first message that
    arrives before the deadline and is either in the context's channel,
    whoever wrote it, or written by the requester, wherever it was sent;
    messages that are neither are passed over.  Shown on [string_input],
    which returns the content of that message. *)
Theorem default_routing_channel_or_author (ctx : Context) (timeout : Z)
    (del : bool) (pre rest : list Event) (t : Z) (m : Message) (w : World) :
  Forall (fun e => channel (snd e) <> channel_id (ctx_channel ctx)
                   /\ author (snd e) <> member_id (ctx_author ctx)) pre ->
  t < timeout ->
  channel m = channel_id (ctx_channel ctx)
  \/ author m = member_id (ctx_author ctx) ->
  Text.string_input ctx None timeout del (pre ++ (t, m) :: rest) w
  = (Return (content m), snd (delete_if del m w)).
Proof.
  intros P T R.
  rewrite string_input_verbatim.
  - unfold first_match. cbn [find fst snd check_or_default].
    apply Z.ltb_lt in T. rewrite T.
    assert (D : default_check ctx m = true).
    { unfold default_check. destruct R as [-> | ->];
        rewrite N.eqb_refl; [reflexivity | apply orb_true_r]. }
    now rewrite D.
  - eapply Forall_impl; [|exact P]. intros e [A B].
    cbn [check_or_default]. unfold default_check.
    apply N.eqb_neq in A. apply N.eqb_neq in B. now rewrite A, B.
Qed.

Lemma default_routing_channel_or_author_witness :
  Text.string_input Sample.ctx None 120 false
    ([(1, {| message_id := 7; channel := 51; author := 9;
             content := "elsewhere"; attachments := [] |})]
     ++ (5, {| message_id := 8; channel := 50; author := 9;
               content := "a bystander answers"; attachments := [] |})
        :: [Sample.at_ 9 1 "the requester answers"]) Sample.world
  = (Return "a bystander answers", Sample.world).
Proof.
  apply (default_routing_channel_or_author Sample.ctx 120 false
           [(1, {| message_id := 7; channel := 51; author := 9;
                   content := "elsewhere"; attachments := [] |})]
           [Sample.at_ 9 1 "the requester answers"] 5
           {| message_id := 8; channel := 50; author := 9;
              content := "a bystander answers"; attachments := [] |}
           Sample.world).
  - repeat constructor; simpl; discriminate.
  - reflexivity.
  - left. reflexivity.
Defined.
